(** * talktomyresume: the profile loader and the chat relay of [app.py]

    A shallow embedding of [src/app.py].  The module has two halves:

    - at import time it reads the profile documents of the data directory
      ([load_section], [build_profile_context]) and builds the module
      globals, among them [SYSTEM_PROMPT];
    - per request, the view function [chat] validates the JSON body,
      assembles the message list and relays it to the completion service.

    Python values are modelled as the code has them: a [str] is a sequence
    of Unicode code points, a parsed JSON body is a tree of Python values,
    a raised exception is the [Raise] branch of a result type.  The data
    directory is a finite map from file names to files, the environment a
    finite map from variable names to values, and the completion client
    carries the log of the calls made through it. *)

From Stdlib Require Import ZArith NArith List String Ascii Bool.
From Stdlib Require Import Floats.SpecFloat.
From stdpp Require Import base option list gmap.

Local Open Scope N_scope.
Set Warnings "-register-all".

(** ** Python primitives *)

Module Py.

(** A [str] is a sequence of code points. *)
Abbreviation str := (list N).

(** A string literal of the source, code point by code point. *)
Definition lit (s : string) : str :=
  List.map N_of_ascii (list_ascii_of_string s).

(** ["\n"] *)
Definition nl : str := [0x0A].

(** [str.isspace] on one code point: the whitespace table of CPython
    ([_PyUnicode_IsWhitespace]). *)
Definition isspace (c : N) : bool :=
  ((0x09 <=? c) && (c <=? 0x0D))
  || ((0x1C <=? c) && (c <=? 0x20))
  || (c =? 0x85) || (c =? 0xA0) || (c =? 0x1680)
  || ((0x2000 <=? c) && (c <=? 0x200A))
  || (c =? 0x2028) || (c =? 0x2029) || (c =? 0x202F)
  || (c =? 0x205F) || (c =? 0x3000).

Fixpoint lstrip (s : str) : str :=
  match s with
  | [] => []
  | c :: s' => if isspace c then lstrip s' else s
  end.

Definition rstrip (s : str) : str := rev (lstrip (rev s)).

(** [s.strip()] *)
Definition strip (s : str) : str := rstrip (lstrip s).

(** [sep.join(parts)] *)
Fixpoint join (sep : str) (parts : list str) : str :=
  match parts with
  | [] => []
  | [p] => p
  | p :: rest => p ++ sep ++ join sep rest
  end.

(** Truth value of a [str] or of a [list]: non-empty. *)
Definition nonempty {A} (l : list A) : bool :=
  match l with [] => false | _ => true end.

(** Exceptions the program can meet, all of them instances of
    [Exception]; [Exception d] is an instance of any other class.  Each
    carries [d], what [str(exc)] gives. *)
Inductive exn :=
| FileNotFoundError (d : str)
| RuntimeError (d : str)
| BadRequest (d : str)
| AttributeError (d : str)
| TypeError (d : str)
| IndexError (d : str)
| Exception (d : str).

(** [str(exc)] *)
Definition str_of_exn (e : exn) : str :=
  match e with
  | FileNotFoundError d | RuntimeError d | BadRequest d | AttributeError d
  | TypeError d | IndexError d | Exception d => d
  end.

(** A computation that returns or raises. *)
Inductive result (A : Type) :=
| Ok (a : A)
| Raise (e : exn).
Arguments Ok {A} a.
Arguments Raise {A} e.

#[global] Instance result_ret : MRet result := fun _ a => Ok a.

#[global] Instance result_bind : MBind result := fun _ _ k m =>
  match m with
  | Ok a => k a
  | Raise e => Raise e
  end.

(** A value as [json.loads] produces it: [None], [bool], [int], [float],
    [str], [list], and [dict] with its items in insertion order (the keys
    of a dict are distinct). *)
Inductive value :=
| VNone
| VBool (b : bool)
| VInt (z : Z)
| VFloat (f : spec_float)
| VStr (s : str)
| VList (l : list value)
| VDict (items : list (str * value)).

(** [bool(v)] *)
Definition truthy (v : value) : bool :=
  match v with
  | VNone => false
  | VBool b => b
  | VInt z => negb (z =? 0)%Z
  | VFloat (S754_zero _) => false
  | VFloat _ => true
  | VStr s => nonempty s
  | VList l => nonempty l
  | VDict items => nonempty items
  end.

(** [type(v).__name__] *)
Definition type_name (v : value) : str :=
  match v with
  | VNone => lit "NoneType"
  | VBool _ => lit "bool"
  | VInt _ => lit "int"
  | VFloat _ => lit "float"
  | VStr _ => lit "str"
  | VList _ => lit "list"
  | VDict _ => lit "dict"
  end.

(** The exception of [v.attr] when [v] has no such attribute. *)
Definition no_attribute (v : value) (attr : string) : exn :=
  AttributeError
    (lit "'" ++ type_name v ++ lit "' object has no attribute '"
     ++ lit attr ++ lit "'").

(** The exception of [iter(v)] when [v] is not iterable. *)
Definition not_iterable (v : value) : exn :=
  TypeError (lit "'" ++ type_name v ++ lit "' object is not iterable").

(** [a or b] *)
Definition or_ (a b : value) : value := if truthy a then a else b.

Definition str_eqb (a b : str) : bool := bool_decide (a = b).

(** [d.get(key)] on the items of a dict: [None] when the key is absent. *)
Fixpoint dict_get (items : list (str * value)) (key : str) : value :=
  match items with
  | [] => VNone
  | (k, v) :: rest => if str_eqb k key then v else dict_get rest key
  end.

(** [v.get(key)]: only a dict has the method. *)
Definition get (v : value) (key : str) : result value :=
  match v with
  | VDict items => Ok (dict_get items key)
  | _ => Raise (no_attribute v "get")
  end.

(** [v.strip()]: only a str has the method. *)
Definition strip_method (v : value) : result str :=
  match v with
  | VStr s => Ok (strip s)
  | _ => Raise (no_attribute v "strip")
  end.

(** [iter(v)], all of it: the elements of a list, the characters of a str,
    the keys of a dict; the other values are not iterable. *)
Definition iterate (v : value) : result (list value) :=
  match v with
  | VList l => Ok l
  | VStr s => Ok (List.map (fun c => VStr [c]) s)
  | VDict items => Ok (List.map (fun kv => VStr (fst kv)) items)
  | _ => Raise (not_iterable v)
  end.

(** [for x in xs: body]: the turns of the loop in order, up to the first
    one that raises. *)
Fixpoint for_each {A S : Type} (body : S → A → result S) (xs : list A)
    (s : S) : result S :=
  match xs with
  | [] => Ok s
  | x :: rest => s' ← body s x; for_each body rest s'
  end.

End Py.

Import Py.

(** ** The data directory and the environment *)

Module Os.

(** A page of a PDF, as [page.extract_text()] sees it: the call returns
    [None] or a str, or it raises. *)
Abbreviation page := (result (option str)).

(** A file of the data directory, as the two readers of the program see
    it.  [file_text] is the outcome of
    [Path.read_text(encoding="utf-8")]: the decoded text, or the exception
    raised on bytes that are not UTF-8.  [file_pages] is the outcome of
    [PdfReader(str(path)).pages]: the pages, in order, or the exception
    pypdf raises on an empty file or on one that is not a PDF. *)
Record file := {
  file_text : result str;
  file_pages : result (list page)
}.

(** The data directory [DATA_DIR]: the regular files in it, by the name
    that is joined to [DATA_DIR]. *)
Abbreviation directory := (gmap str file).

(** The process environment, after [load_dotenv()]. *)
Abbreviation environ := (gmap str str).

(** [path.is_file()] *)
Definition is_file (dir : directory) (path : str) : bool :=
  bool_decide (is_Some (dir !! path)).

(** The exception of opening a file that is not there. *)
Definition no_such_file (path : str) : exn :=
  FileNotFoundError
    (lit "[Errno 2] No such file or directory: '" ++ path ++ lit "'").

(** [path.read_text(encoding="utf-8")]: raises when there is no such
    file, and when the file cannot be decoded. *)
Definition read_text (dir : directory) (path : str) : result str :=
  match dir !! path with
  | Some f => file_text f
  | None => Raise (no_such_file path)
  end.

(** [PdfReader(str(path)).pages]: raises when there is no such file, and
    when the file cannot be parsed. *)
Definition PdfReader (dir : directory) (path : str) : result (list page) :=
  match dir !! path with
  | Some f => file_pages f
  | None => Raise (no_such_file path)
  end.

(** [os.getenv(name)] *)
Definition getenv (env : environ) (name : str) : option str := env !! name.

(** [os.getenv(name, default)] *)
Definition getenv_default (env : environ) (name default : str) : str :=
  match env !! name with
  | Some v => v
  | None => default
  end.

End Os.

Import Os.

(** ** The document loader and the profile context *)

Module App.

Definition _read_text_file (dir : directory) (path : str) : result str :=
  if is_file dir path then read_text dir path else Ok [].

(** One turn of the loop over [reader.pages]:
    [content = page.extract_text() or ""], appended when truthy. *)
Definition add_page (text_parts : list str) (p : page) : result (list str) :=
  extracted ← p;
  let content := match extracted with
                 | Some s => if nonempty s then s else []
                 | None => []
                 end in
  Ok (if nonempty content then text_parts ++ [content] else text_parts).

Definition _read_pdf_file (dir : directory) (path : str) : result str :=
  if negb (is_file dir path) then Ok []
  else
    pages ← PdfReader dir path;
    text_parts ← for_each add_page pages [];
    Ok (join nl text_parts).

(** The hardcoded alternate resume of the special case. *)
Definition alt_resume : str := lit "Ashish_Jaiswal.pdf".

Definition load_section (dir : directory) (name : str) : result str :=
  let txt_path := name ++ lit ".txt" in
  let pdf_path := name ++ lit ".pdf" in
  text ← _read_text_file dir txt_path;
  text ← (if negb (nonempty (strip text))
          then _read_pdf_file dir pdf_path
          else Ok text);
  text ← (if str_eqb name (lit "resume") && negb (nonempty (strip text))
          then _read_pdf_file dir alt_resume
          else Ok text);
  Ok text.

(** The text appended when no section has content. *)
Definition no_profile_data : str :=
  lit "No profile data is available yet. Please add your resume/LinkedIn text or PDFs "
  ++ lit "to the data/ directory as resume.txt / resume.pdf and linkedin.txt / linkedin.pdf.".

Definition build_profile_context (dir : directory) : result str :=
  resume ← load_section dir (lit "resume");
  linkedin ← load_section dir (lit "linkedin");
  let parts : list str := [] in
  let parts := if nonempty (strip resume)
               then parts ++ [lit "## Resume" ++ nl ++ resume]
               else parts in
  let parts := if nonempty (strip linkedin)
               then parts ++ [lit "## LinkedIn Profile" ++ nl ++ linkedin]
               else parts in
  let parts := if negb (nonempty parts)
               then parts ++ [no_profile_data]
               else parts in
  Ok (join (nl ++ nl) parts).

(** ** Module globals *)

(** The globals bound when the module body runs. *)
Record globals := {
  PERSON_NAME : str;
  PROFILE_CONTEXT : str;
  DEFAULT_MODEL : str;
  SYSTEM_PROMPT : str
}.

Definition api_key_unset : str :=
  lit "OPENAI_API_KEY environment variable is not set. Set it locally in a .env file "
  ++ lit "or as an environment variable / GitHub secret in your deployment platform.".

(** The f-string bound to [SYSTEM_PROMPT]. *)
Definition system_prompt (person_name profile_context : str) : str :=
  lit "You are acting as " ++ person_name
  ++ lit ". You are answering questions from recruiters about "
  ++ person_name
  ++ lit "'s career, background, skills, and experience. Your responsibility is to "
  ++ lit "represent " ++ person_name
  ++ lit " as faithfully and accurately as possible, based only on the "
  ++ lit "information provided." ++ nl ++ nl
  ++ lit "Use the resume and LinkedIn information below to answer questions. If you don't know "
  ++ lit "the answer from this information, say that you are not sure instead of inventing details."
  ++ nl ++ nl
  ++ profile_context.

(** The module body, run once when the module is imported. *)
Definition module_body (env : environ) (dir : directory) : result globals :=
  let OPENAI_API_KEY := getenv env (lit "OPENAI_API_KEY") in
  if negb (match OPENAI_API_KEY with Some k => nonempty k | None => false end)
  then Raise (RuntimeError api_key_unset)
  else
    let person_name := getenv_default env (lit "PERSON_NAME") (lit "Your Name") in
    profile_context ← build_profile_context dir;
    let default_model :=
      getenv_default env (lit "OPENAI_MODEL") (lit "gpt-4o-mini") in
    Ok {| PERSON_NAME := person_name;
          PROFILE_CONTEXT := profile_context;
          DEFAULT_MODEL := default_model;
          SYSTEM_PROMPT := system_prompt person_name profile_context |}.

(** ** The completion client *)

(** A chat message [{"role": ..., "content": ...}]. *)
Record message := { role : str; content : str }.

(** One call of [client.chat.completions.create]. *)
Record call := { call_model : str; call_messages : list message }.

(** What the service gives back: the [message.content] of each choice
    ([None] or a str), in order. *)
Record completion := { choices : list (option str) }.

(** The client: how the service answers a call, given the calls made
    before it, and the log of the calls made so far. *)
Record client := {
  service : list call -> call -> result completion;
  calls : list call
}.

(** A view function returns or raises, and may call the service. *)
Definition M (A : Type) : Type := client -> result A * client.

#[global] Instance M_ret : MRet M := fun _ a c => (Ok a, c).

#[global] Instance M_bind : MBind M := fun _ _ k m c =>
  match m c with
  | (Ok a, c') => k a c'
  | (Raise e, c') => (Raise e, c')
  end.

Definition lift {A} (r : result A) : M A := fun c => (r, c).

(** [client.chat.completions.create(model=..., messages=...)] *)
Definition create (model : str) (messages : list message) : M completion :=
  fun c =>
    let k := {| call_model := model; call_messages := messages |} in
    (service c (calls c) k,
     {| service := service c; calls := calls c ++ [k] |}).

(** [try: body  except Exception as exc: handler exc] *)
Definition try_except {A} (body : M A) (handler : exn -> M A) : M A :=
  fun c =>
    match body c with
    | (Ok a, c') => (Ok a, c')
    | (Raise exc, c') => handler exc c'
    end.

(** ** The chat relay *)

(** The body of a POST: JSON, or something [json.loads] refuses, [d]
    saying why. *)
Inductive request :=
| BadJson (d : str)
| Json (v : value).

(** [request.get_json(force=True)] *)
Definition get_json (req : request) : result value :=
  match req with
  | Json v => Ok v
  | BadJson d => Raise (BadRequest d)
  end.

(** What the view returns: [jsonify(body), status]. *)
Record response := { body : value; status : N }.

Definition jsonify (items : list (str * value)) : value := VDict items.

(** One turn of the loop over [history]. *)
Definition normalize_item (normalized_history : list message) (item : value)
  : list message :=
  match item with
  | VDict items =>
      let role := dict_get items (lit "role") in
      let content := dict_get items (lit "content") in
      match role, content with
      | VStr r, VStr c =>
          if str_eqb r (lit "user") || str_eqb r (lit "assistant")
          then normalized_history ++ [{| role := r; content := c |}]
          else normalized_history
      | _, _ => normalized_history
      end
  | _ => normalized_history
  end.

(** [completion.choices[0].message.content] *)
Definition first_content (k : completion) : result value :=
  match choices k with
  | [] => Raise (IndexError (lit "list index out of range"))
  | Some s :: _ => Ok (VStr s)
  | None :: _ => Ok VNone
  end.

Definition chat (g : globals) (req : request) : M response :=
  json ← lift (get_json req);
  let data := or_ json (VDict []) in
  m ← lift (get data (lit "message"));
  message ← lift (strip_method (or_ m (VStr [])));
  h ← lift (get data (lit "history"));
  let history := or_ h (VList []) in
  if negb (nonempty message)
  then mret {| body := jsonify [(lit "error", VStr (lit "message is required"))];
               status := 400 |}
  else
    items ← lift (iterate history);
    let normalized_history := fold_left normalize_item items [] in
    let messages :=
      [{| role := lit "system"; content := SYSTEM_PROMPT g |}]
      ++ normalized_history
      ++ [{| role := lit "user"; content := message |}] in
    try_except
      (completion ← create (DEFAULT_MODEL g) messages;
       reply ← lift (first_content completion);
       mret {| body := jsonify [(lit "reply", reply)]; status := 200 |})
      (fun exc =>
         mret {| body := jsonify [(lit "error", VStr (str_of_exn exc))];
                 status := 500 |}).

(** ** The process *)

(** What happens to a running process: the data directory or the
    environment changes under it, or a request is posted to [/api/chat]. *)
Inductive event :=
| WriteFile (path : str) (f : file)
| RemoveFile (path : str)
| SetEnv (name value : str)
| Post (req : request).

(** A running process: the module globals bound at import, the client, the
    world around it, and what each request got, oldest first. *)
Record process := {
  proc_globals : globals;
  proc_client : client;
  proc_env : environ;
  proc_dir : directory;
  proc_replies : list (result response)
}.

(** Starting the process runs the module body once. *)
Definition start (env : environ) (dir : directory) (c : client)
  : result process :=
  g ← module_body env dir;
  Ok {| proc_globals := g; proc_client := c; proc_env := env;
        proc_dir := dir; proc_replies := [] |}.

Definition step (p : process) (ev : event) : process :=
  match ev with
  | WriteFile path f =>
      {| proc_globals := proc_globals p; proc_client := proc_client p;
         proc_env := proc_env p; proc_dir := <[path := f]> (proc_dir p);
         proc_replies := proc_replies p |}
  | RemoveFile path =>
      {| proc_globals := proc_globals p; proc_client := proc_client p;
         proc_env := proc_env p; proc_dir := delete path (proc_dir p);
         proc_replies := proc_replies p |}
  | SetEnv name v =>
      {| proc_globals := proc_globals p; proc_client := proc_client p;
         proc_env := <[name := v]> (proc_env p); proc_dir := proc_dir p;
         proc_replies := proc_replies p |}
  | Post req =>
      let (r, c) := chat (proc_globals p) req (proc_client p) in
      {| proc_globals := proc_globals p; proc_client := c;
         proc_env := proc_env p; proc_dir := proc_dir p;
         proc_replies := proc_replies p ++ [r] |}
  end.

Definition run (p : process) (evs : list event) : process :=
  fold_left step evs p.

End App.

Import App.

(** ** The specification's vocabulary

    The definitions below say, in the words of the specification, what the
    loops and fallbacks above are meant to compute; the theorems compare
    the two. *)

Module Spec.

(** Empty or whitespace-only. *)
Definition blank (s : str) : Prop := strip s = [].

(** The text of a page: nothing when the extraction gives [None]. *)
Definition page_text (extracted : option str) : str := default [] extracted.

(** The texts of the pages, in page order, or the exception of the first
    page whose extraction raises. *)
Fixpoint page_texts (pages : list page) : result (list str) :=
  match pages with
  | [] => Ok []
  | p :: rest =>
      extracted ← p;
      texts ← page_texts rest;
      Ok (page_text extracted :: texts)
  end.

(** The text of a PDF: the non-empty page texts, in page order, joined by
    newlines; the exception when the file or a page cannot be read. *)
Definition pdf_text (f : file) : result str :=
  pages ← file_pages f;
  texts ← page_texts pages;
  Ok (join nl (List.filter nonempty texts)).

(** The content of the text file at [path]; an absent file has none. *)
Definition text_at (dir : directory) (path : str) : result str :=
  match dir !! path with
  | Some f => file_text f
  | None => Ok []
  end.

(** The text extracted from the PDF at [path]; an absent file has none. *)
Definition extracted_at (dir : directory) (path : str) : result str :=
  match dir !! path with
  | Some f => pdf_text f
  | None => Ok []
  end.

(** The fallback chain of a section: text file, then PDF, then, for the
    resume only, the alternate PDF. *)
Definition section_text (dir : directory) (name : str) : result str :=
  txt ← text_at dir (name ++ lit ".txt");
  text ← (if decide (blank txt)
          then extracted_at dir (name ++ lit ".pdf")
          else Ok txt);
  if decide (name = lit "resume" ∧ blank text)
  then extracted_at dir alt_resume
  else Ok text.


(** The shape check of a history item: a mapping, with [role] one of
    "user" and "assistant", and [content] a string. *)
Definition is_mapping (item : value) : bool :=
  match item with VDict _ => true | _ => false end.

Definition field (item : value) (key : str) : value :=
  match item with VDict items => dict_get items key | _ => VNone end.

Definition role_ok (item : value) : bool :=
  match field item (lit "role") with
  | VStr r => bool_decide (r = lit "user" ∨ r = lit "assistant")
  | _ => false
  end.

Definition content_ok (item : value) : bool :=
  match field item (lit "content") with VStr _ => true | _ => false end.

Definition conforming (item : value) : bool :=
  is_mapping item && role_ok item && content_ok item.

(** The string held by a value; nothing for the other values. *)
Definition str_of (v : value) : str :=
  match v with VStr s => s | _ => [] end.

(** The message a conforming item stands for. *)
Definition message_of (item : value) : message :=
  {| role := str_of (field item (lit "role"));
     content := str_of (field item (lit "content")) |}.

(** The filtered history: the conforming items, in their order. *)
Definition filtered_history (items : list value) : list message :=
  List.map message_of (List.filter conforming items).

(** The first message of every outgoing sequence. *)
Definition system_message (g : globals) : message :=
  {| role := lit "system"; content := SYSTEM_PROMPT g |}.

(** The outgoing sequence of a request. *)
Definition outgoing (g : globals) (items : list value) (msg : str)
  : list message :=
  system_message g :: filtered_history items
    ++ [{| role := lit "user"; content := msg |}].

(** An error reply. *)
Definition error_reply (description : str) (code : N) : response :=
  {| body := VDict [(lit "error", VStr description)]; status := code |}.

(** What the relay does with the service's answer. *)
Definition relayed (answer : result completion) : response :=
  match answer with
  | Ok k =>
      match first_content k with
      | Ok reply => {| body := VDict [(lit "reply", reply)]; status := 200 |}
      | Raise exc => error_reply (str_of_exn exc) 500
      end
  | Raise exc => error_reply (str_of_exn exc) 500
  end.

(** The key has no binding among the items of a dict. *)
Definition missing (key : str) (items : list (str * value)) : Prop :=
  Forall (fun kv => fst kv ≠ key) items.

(** The calls a client made after the first [n]. *)
Definition calls_after (n : nat) (c : client) : list call :=
  drop n (calls c).

End Spec.

Import Spec.

(** ** Sample inputs *)

Module Sample.

(** A text file: pypdf finds no PDF in it. *)
Definition text_file (s : string) : file :=
  {| file_text := Ok (lit s);
     file_pages := Raise (Exception (lit "EOF marker not found")) |}.

(** A PDF whose pages extract as given: its bytes are not UTF-8 text. *)
Definition pdf_file (pages : list (option str)) : file :=
  {| file_text := Raise (Exception (lit "'utf-8' codec can't decode bytes"));
     file_pages := Ok (List.map Ok pages) |}.

(** A file of zero bytes: empty as text, refused by pypdf. *)
Definition zero_bytes : file :=
  {| file_text := Ok [];
     file_pages := Raise (Exception (lit "Cannot read an empty file")) |}.

(** A data directory whose only file is a zero-byte [resume.pdf]. *)
Definition empty_resume_pdf : directory :=
  {[ lit "resume.pdf" := zero_bytes ]}.

(** A data directory with both a text resume and a PDF resume. *)
Definition both_resumes : directory :=
  {[ lit "resume.txt" := text_file "Engineer, ten years.";
     lit "resume.pdf" := pdf_file [Some (lit "PDF resume")] ]}.

(** A data directory with a blank text resume and the alternate PDF. *)
Definition only_alternate : directory :=
  {[ lit "resume.txt" := text_file "  ";
     lit "Ashish_Jaiswal.pdf" :=
       pdf_file [Some (lit "page one"); None; Some []; Some (lit "page two")] ]}.

Definition env : environ :=
  {[ lit "OPENAI_API_KEY" := lit "sk-test"; lit "PERSON_NAME" := lit "Ada" ]}.

Definition globals_ : globals :=
  {| PERSON_NAME := lit "Ada";
     PROFILE_CONTEXT := no_profile_data;
     DEFAULT_MODEL := lit "gpt-4o-mini";
     SYSTEM_PROMPT := system_prompt (lit "Ada") no_profile_data |}.

(** A service that always answers. *)
Definition answering : client :=
  {| service := fun _ _ => Ok {| choices := [Some (lit "Hello!")] |};
     calls := [] |}.

(** A service that is down. *)
Definition failing : client :=
  {| service := fun _ _ => Raise (Exception (lit "Connection error."));
     calls := [] |}.

Definition item (r c : string) : value :=
  VDict [(lit "role", VStr (lit r)); (lit "content", VStr (lit c))].

(** [[{role:"system", content:"x"}, {role:"user", content:"hello"}]] *)
Definition history : list value := [item "system" "x"; item "user" "hello"].

(** [{message: "Hi", history: [...]}] *)
Definition fields : list (str * value) :=
  [(lit "message", VStr (lit "Hi")); (lit "history", VList history)].

(** [{message: "  "}] *)
Definition blank_fields : list (str * value) :=
  [(lit "message", VStr (lit "  "))].

(** [{message: 42}] *)
Definition number_fields : list (str * value) :=
  [(lit "message", VInt 42)].

Definition process_ : process :=
  {| proc_globals := globals_; proc_client := answering; proc_env := env;
     proc_dir := ∅; proc_replies := [] |}.

(** Two requests, with the resume appearing in the data directory
    between them. *)
Definition events : list event :=
  [Post (Json (VDict fields));
   WriteFile (lit "resume.txt") (text_file "Engineer, ten years.");
   Post (Json (VDict [(lit "message", VStr (lit "And then?"))]))].

End Sample.

(** ** Further vocabulary: shapes of requests, replies and runs *)

Module Shape.

(** Whitespace only; the empty string is. *)
Definition whitespace (s : str) : Prop := Forall (λ c, isspace c = true) s.

(** A page that gives no text. *)
Definition no_text (p : page) : Prop := p = Ok None ∨ p = Ok (Some []).

(** A role a history item may have. *)
Definition chat_role (r : str) : Prop := r = lit "user" ∨ r = lit "assistant".

(** The JSON object [{"role": ..., "content": ...}] of a message. *)
Definition item_of (m : message) : value :=
  VDict [(lit "role", VStr (role m)); (lit "content", VStr (content m))].

(** The JSON value of [message.content]. *)
Definition content_value (c : option str) : value :=
  match c with
  | Some s => VStr s
  | None => VNone
  end.

(** A success reply. *)
Definition reply_of (v : value) : response :=
  {| body := VDict [(lit "reply", v)]; status := 200 |}.

(** The calls a view made: those of the client after it, past the ones
    the client came with. *)
Definition calls_made (before after : client) : list call :=
  drop (length (calls before)) (calls after).

Definition is_post (ev : event) : bool :=
  match ev with Post _ => true | _ => false end.

(** The number of requests among the events. *)
Definition posts (evs : list event) : nat :=
  length (List.filter is_post evs).

End Shape.

Import Shape.

(** ** Further sample inputs *)

Module Cases.

(** A PDF whose second page gives no text. *)
Definition three_pages : file :=
  Sample.pdf_file [Some (lit "one"); Some []; Some (lit "two")].

Definition two_pages : file :=
  Sample.pdf_file [Some (lit "one"); Some (lit "two")].

(** A blank text resume beside a PDF resume and the alternate PDF. *)
Definition pdf_and_alternate : directory :=
  {[ lit "resume.txt" := Sample.text_file " ";
     lit "resume.pdf" := Sample.pdf_file [Some (lit "PDF resume")];
     lit "Ashish_Jaiswal.pdf" := Sample.pdf_file [Some (lit "alternate")] ]}.

(** The same, with a stray file added. *)
Definition with_stray_file : directory :=
  <[ lit "notes.txt" := Sample.text_file "stray" ]> pdf_and_alternate.

(** A service that answers with two choices. *)
Definition two_choices : client :=
  {| service := fun _ _ =>
       Ok {| choices := [Some (lit "first"); Some (lit "second")] |};
     calls := [] |}.

(** A service that answers with no choice at all. *)
Definition no_choice : client :=
  {| service := fun _ _ => Ok {| choices := [] |}; calls := [] |}.

(** [{message: null}] *)
Definition null_message : list (str * value) := [(lit "message", VNone)].

(** [{message: "Hi", history: 7}] *)
Definition number_history : list (str * value) :=
  [(lit "message", VStr (lit "Hi")); (lit "history", VInt 7)].

(** [{message: "Hi", history: "earlier"}] *)
Definition string_history : list (str * value) :=
  [(lit "message", VStr (lit "Hi")); (lit "history", VStr (lit "earlier"))].

(** [{message: "  Hi "}] *)
Definition padded_message : list (str * value) :=
  [(lit "message", VStr (lit "  Hi "))].

(** An exchange to send back as history. *)
Definition exchange : list message :=
  [{| role := lit "user"; content := lit "Who are you?" |};
   {| role := lit "assistant"; content := lit "I am Ada." |}].

(** The environment changes the model while the process runs. *)
Definition events : list event :=
  [Post (Json (VDict Sample.fields));
   SetEnv (lit "OPENAI_MODEL") (lit "other-model");
   Post (Json (VDict Sample.blank_fields));
   Post (Json (VDict padded_message))].

End Cases.

(** * Theorems *)

(** ** Python strings *)

Lemma nonempty_false {A} (l : list A) : nonempty l = false ↔ l = [].
Proof. destruct l; simpl; split; congruence. Qed.

Lemma nonempty_true {A} (l : list A) : nonempty l = true ↔ l ≠ [].
Proof. destruct l; simpl; split; congruence. Qed.

Lemma str_eqb_eq (a b : str) : str_eqb a b = true ↔ a = b.
Proof. unfold str_eqb. apply bool_decide_eq_true. Qed.

Example strip_trims_both_ends : strip (lit "  Hi ") = lit "Hi".
Proof. reflexivity. Qed.

Example strip_unicode_space : strip [0xA0; 0x3000; 0x0A] = [].
Proof. reflexivity. Qed.

Example join_three :
  join nl [lit "a"; lit "b"; lit "c"] = lit "a" ++ nl ++ lit "b" ++ nl ++ lit "c".
Proof. reflexivity. Qed.

Lemma txt_pdf_differ (name : str) : name ++ lit ".pdf" ≠ name ++ lit ".txt".
Proof. intros H. apply app_inv_head in H. discriminate H. Qed.

(** ** The document loader *)

Lemma bind_ok {A} (m : result A) : (m ≫= λ a, Ok a) = m.
Proof. by destruct m. Qed.

Lemma read_text_file_spec (dir : directory) (path : str) :
  _read_text_file dir path = text_at dir path.
Proof.
  unfold _read_text_file, is_file, read_text, text_at.
  destruct (dir !! path) as [f|] eqn:E.
  - rewrite bool_decide_eq_true_2 by eauto. reflexivity.
  - rewrite bool_decide_eq_false_2; [reflexivity|].
    intros [f Hf]. discriminate Hf.
Qed.

Lemma add_pages_spec (pages : list page) (acc : list str) :
  for_each add_page pages acc
  = texts ← page_texts pages; Ok (acc ++ List.filter nonempty texts).
Proof.
  revert acc. induction pages as [|p pages IH]; intros acc; simpl.
  - by rewrite app_nil_r.
  - destruct p as [[[|c s]|]|exc]; simpl; try reflexivity;
      rewrite IH; destruct (page_texts pages) as [texts|exc]; simpl;
      try reflexivity.
    by rewrite <- app_assoc.
Qed.

Lemma read_pdf_file_spec (dir : directory) (path : str) :
  _read_pdf_file dir path = extracted_at dir path.
Proof.
  unfold _read_pdf_file, is_file, PdfReader, extracted_at, pdf_text.
  destruct (dir !! path) as [f|] eqn:E.
  - rewrite bool_decide_eq_true_2 by eauto. simpl.
    destruct (file_pages f) as [pages|exc]; simpl; [|reflexivity].
    rewrite add_pages_spec. by destruct (page_texts pages).
  - rewrite bool_decide_eq_false_2; [reflexivity|].
    intros [f Hf]. discriminate Hf.
Qed.

Lemma load_section_spec (dir : directory) (name : str) :
  load_section dir name = section_text dir name.
Proof.
  unfold load_section, section_text, blank.
  rewrite read_text_file_spec, !read_pdf_file_spec.
  destruct (text_at dir (name ++ lit ".txt")) as [txt|exc]; simpl;
    [|reflexivity].
  destruct (decide (strip txt = [])) as [Hb|Hb].
  - apply nonempty_false in Hb as Hb'. rewrite Hb'. simpl.
    destruct (extracted_at dir (name ++ lit ".pdf")) as [pdf|exc]; simpl;
      [|reflexivity].
    destruct (decide (name = lit "resume" ∧ strip pdf = [])) as [[Hn Ht]|Hn].
    + apply str_eqb_eq in Hn. apply nonempty_false in Ht.
      rewrite Hn, Ht. simpl. apply bind_ok.
    + destruct (str_eqb name (lit "resume")) eqn:En; [|reflexivity].
      apply str_eqb_eq in En.
      destruct (nonempty (strip pdf)) eqn:Et; [reflexivity|].
      apply nonempty_false in Et. tauto.
  - apply nonempty_true in Hb as Hb'. rewrite Hb'. simpl.
    destruct (decide (name = lit "resume" ∧ strip txt = [])) as [[_ Ht]|_];
      [contradiction|].
    rewrite Hb'. by rewrite andb_false_r.
Qed.


(** C6.  When [<name>.txt] exists and its trimmed content is not empty,
    [load_section name] returns the content of the text file, and the PDF
    is not used: the result is the same whatever file [<name>.pdf] is,
    one with text or one that cannot be read included. *)
Theorem load_section_text_precedence
    (dir : directory) (name : str) (f : file) (text : str) :
  dir !! (name ++ lit ".txt") = Some f →
  file_text f = Ok text →
  strip text ≠ [] →
  load_section dir name = Ok text
  ∧ ∀ pdf : file,
      load_section (<[name ++ lit ".pdf" := pdf]> dir) name = Ok text.
Proof.
  intros Hf Ht Hne.
  assert (Hgen : ∀ d : directory, d !! (name ++ lit ".txt") = Some f →
                   load_section d name = Ok text).
  { intros d Hd. rewrite load_section_spec.
    unfold section_text, text_at, blank. rewrite Hd, Ht. simpl.
    destruct (decide (strip text = [])) as [He|_]; [contradiction|].
    simpl. apply decide_False. tauto. }
  split; [by apply Hgen|].
  intros pdf. apply Hgen.
  rewrite lookup_insert_ne; [exact Hf | apply txt_pdf_differ].
Qed.

Lemma load_section_text_precedence_witness :
  load_section Sample.both_resumes (lit "resume")
  = Ok (lit "Engineer, ten years.")
  ∧ ∀ pdf : file,
      load_section (<[lit "resume" ++ lit ".pdf" := pdf]> Sample.both_resumes)
        (lit "resume")
      = Ok (lit "Engineer, ten years.").
Proof.
  apply (load_section_text_precedence Sample.both_resumes (lit "resume")
           (Sample.text_file "Engineer, ten years.")).
  - reflexivity.
  - reflexivity.
  - vm_compute. discriminate.
Defined.

(** C7.  When the text file and the PDF of a section give only empty or
    whitespace-only text (an absent file gives none), [load_section]
    gives, for the section "resume", what extracting the alternate PDF
    gives: its text when it can be extracted.  For every other section it
    returns the text of its own PDF: the alternate file is a fallback of
    the resume only. *)
Theorem load_section_alternate_resume (dir : directory) (name : str)
    (txt pdf : str) :
  text_at dir (name ++ lit ".txt") = Ok txt →
  blank txt →
  extracted_at dir (name ++ lit ".pdf") = Ok pdf →
  blank pdf →
  load_section dir name
  = if decide (name = lit "resume")
    then extracted_at dir alt_resume
    else Ok pdf.
Proof.
  intros Htxt Hbt Hpdf Hbp. rewrite load_section_spec.
  unfold section_text. rewrite Htxt. simpl.
  destruct (decide (blank txt)) as [_|Hc]; [|contradiction].
  rewrite Hpdf. simpl.
  destruct (decide (name = lit "resume")) as [Hn|Hn].
  - by rewrite decide_True.
  - apply decide_False. tauto.
Qed.

Lemma load_section_alternate_resume_witness :
  load_section Sample.only_alternate (lit "resume")
  = Ok (lit "page one" ++ nl ++ lit "page two").
Proof.
  apply (load_section_alternate_resume Sample.only_alternate (lit "resume")
           (lit "  ") []).
  - reflexivity.
  - reflexivity.
  - reflexivity.
  - reflexivity.
Defined.







Example build_profile_context_no_files :
  build_profile_context ∅ = Ok no_profile_data.
Proof. reflexivity. Qed.

Example build_profile_context_resume_only :
  build_profile_context Sample.both_resumes
  = Ok (lit "## Resume" ++ nl ++ lit "Engineer, ten years.").
Proof. reflexivity. Qed.

(** ** The chat relay *)

Lemma role_test (r : str) :
  str_eqb r (lit "user") || str_eqb r (lit "assistant")
  = bool_decide (r = lit "user" ∨ r = lit "assistant").
Proof.
  unfold str_eqb. repeat case_bool_decide; simpl; try reflexivity; tauto.
Qed.

Lemma normalize_item_spec (acc : list message) (item : value) :
  normalize_item acc item
  = acc ++ (if conforming item then [message_of item] else []).
Proof.
  unfold normalize_item, conforming, role_ok, content_ok, message_of, field.
  destruct item as [| | | | |l|items]; simpl; try by rewrite app_nil_r.
  destruct (dict_get items (lit "role")) as [| | | |r| |]; simpl;
    try by rewrite app_nil_r.
  destruct (dict_get items (lit "content")) as [| | | |c| |]; simpl;
    rewrite ?andb_false_r, ?app_nil_r; try reflexivity.
  rewrite role_test, andb_true_r.
  destruct (bool_decide _); simpl; by rewrite ?app_nil_r.
Qed.

Lemma normalize_spec (items : list value) (acc : list message) :
  fold_left normalize_item items acc = acc ++ filtered_history items.
Proof.
  revert acc. induction items as [|item items IH]; intros acc; simpl.
  - by rewrite app_nil_r.
  - rewrite IH, normalize_item_spec. unfold filtered_history. simpl.
    destruct (conforming item); simpl.
    + by rewrite <- app_assoc.
    + by rewrite app_nil_r.
Qed.

(** A request with a usable message: one call, with the outgoing
    sequence, and the answer relayed. *)
Lemma chat_relays (g : globals) (c : client)
    (fields : list (str * value)) (m : str) (items : list value) :
  dict_get fields (lit "message") = VStr m →
  strip m ≠ [] →
  iterate (or_ (dict_get fields (lit "history")) (VList [])) = Ok items →
  let k := {| call_model := DEFAULT_MODEL g;
              call_messages := outgoing g items (strip m) |} in
  chat g (Json (VDict fields)) c
  = (Ok (relayed (service c (calls c) k)),
     {| service := service c; calls := calls c ++ [k] |}).
Proof.
  intros Hm Hne Hit k.
  destruct fields as [|kv fields]; [discriminate Hm|].
  unfold chat, lift, mbind, M_bind, get_json, or_.
  change (truthy (VDict (kv :: fields))) with true. cbv iota.
  unfold get. rewrite Hm.
  assert (Hm' : m ≠ []) by (intros ->; by apply Hne).
  change (truthy (VStr m)) with (nonempty m).
  apply nonempty_true in Hm' as ->.
  change (strip_method (VStr m)) with (Ok (strip m)). cbv iota beta.
  apply nonempty_true in Hne as Hne'. rewrite Hne'.
  change (negb true) with false. cbv iota.
  unfold or_ in Hit. rewrite Hit.
  rewrite normalize_spec.
  change ([{| role := lit "system"; content := SYSTEM_PROMPT g |}]
          ++ ([] ++ filtered_history items)
          ++ [{| role := lit "user"; content := strip m |}])
    with (outgoing g items (strip m)).
  unfold try_except, create, mret, M_ret, relayed, error_reply, jsonify.
  fold k.
  destruct (service c (calls c) k) as [comp|exc]; [|reflexivity].
  unfold first_content. by destruct (choices comp) as [|[s|] ?].
Qed.

Lemma or_dict_default (fields : list (str * value)) :
  or_ (VDict fields) (VDict []) = VDict fields.
Proof. by destruct fields. Qed.

Lemma iterate_history_list (items : list value) :
  iterate (or_ (VList items) (VList [])) = Ok items.
Proof. by destruct items. Qed.

Lemma dict_get_missing (key : str) (items : list (str * value)) :
  missing key items → dict_get items key = VNone.
Proof.
  unfold missing. induction 1 as [|[k v] items Hk _ IH]; simpl; [reflexivity|].
  unfold str_eqb. by rewrite bool_decide_eq_false_2.
Qed.

(** A message that normalises to the empty string: the 400 reply, and the
    client is left as it was. *)
Lemma chat_rejects (g : globals) (c : client) (fields : list (str * value)) :
  strip_method (or_ (dict_get fields (lit "message")) (VStr [])) = Ok [] →
  chat g (Json (VDict fields)) c
  = (Ok (error_reply (lit "message is required") 400), c).
Proof.
  intros Hs. unfold chat, lift, mbind, M_bind, get_json.
  rewrite or_dict_default. unfold get. by rewrite Hs.
Qed.

(** A message that cannot be normalised: the exception leaves the view,
    and the client is left as it was. *)
Lemma chat_raises (g : globals) (c : client) (fields : list (str * value))
    (exc : exn) :
  strip_method (or_ (dict_get fields (lit "message")) (VStr [])) = Raise exc →
  chat g (Json (VDict fields)) c = (Raise exc, c).
Proof.
  intros Hs. unfold chat, lift, mbind, M_bind, get_json.
  rewrite or_dict_default. unfold get. by rewrite Hs.
Qed.

(** Whatever the request, the view makes no call or one call, and a call
    it makes starts with the system message. *)
Lemma chat_calls (g : globals) (req : request) (c : client) :
  service (chat g req c).2 = service c
  ∧ (calls (chat g req c).2 = calls c
     ∨ ∃ rest, calls (chat g req c).2
               = calls c ++ [{| call_model := DEFAULT_MODEL g;
                                call_messages := system_message g :: rest |}]).
Proof.
  unfold chat, lift, mbind, M_bind, try_except, create, mret, M_ret.
  repeat (case_match; simplify_eq/=); eauto.
Qed.

(** C1.  For a request whose message is a string that is not empty once
    trimmed, and whose history can be iterated (absent, null or empty it
    has no items; a list has its elements), the view makes one call to
    the completion service, and the messages of that call are: the system
    message with [SYSTEM_PROMPT], then the filtered history in its order,
    then the user message with the trimmed text. *)
Theorem chat_outgoing_sequence (g : globals) (c : client)
    (fields : list (str * value)) (m : str) (items : list value) :
  dict_get fields (lit "message") = VStr m →
  strip m ≠ [] →
  iterate (or_ (dict_get fields (lit "history")) (VList [])) = Ok items →
  calls (chat g (Json (VDict fields)) c).2
  = calls c
    ++ [{| call_model := DEFAULT_MODEL g;
           call_messages :=
             [{| role := lit "system"; content := SYSTEM_PROMPT g |}]
             ++ filtered_history items
             ++ [{| role := lit "user"; content := strip m |}] |}].
Proof.
  intros Hm Hne Hit. by rewrite (chat_relays g c fields m items).
Qed.

Lemma chat_outgoing_sequence_witness :
  calls (chat Sample.globals_ (Json (VDict Sample.fields)) Sample.answering).2
  = [{| call_model := lit "gpt-4o-mini";
        call_messages :=
          [{| role := lit "system";
              content := system_prompt (lit "Ada") no_profile_data |};
           {| role := lit "user"; content := lit "hello" |};
           {| role := lit "user"; content := lit "Hi" |}] |}].
Proof.
  apply (chat_outgoing_sequence Sample.globals_ Sample.answering
           Sample.fields (lit "Hi") Sample.history).
  - reflexivity.
  - vm_compute. discriminate.
  - reflexivity.
Defined.

(** C2.  For a request whose message field is missing, or is a string
    that is empty once trimmed (empty or whitespace only), the view
    returns the error reply "message is required" with status 400, and
    the client is unchanged: the completion service was not called. *)
Theorem chat_message_required (g : globals) (c : client)
    (fields : list (str * value)) :
  missing (lit "message") fields
  ∨ (∃ m, dict_get fields (lit "message") = VStr m ∧ strip m = []) →
  chat g (Json (VDict fields)) c
  = (Ok {| body := VDict [(lit "error", VStr (lit "message is required"))];
           status := 400 |},
     c).
Proof.
  intros H. apply chat_rejects. destruct H as [Hmiss|(m & Hm & Hs)].
  - by rewrite dict_get_missing.
  - rewrite Hm. unfold or_. destruct m; simpl; [reflexivity|].
    by rewrite Hs.
Qed.

Lemma chat_message_required_witness :
  chat Sample.globals_ (Json (VDict Sample.blank_fields)) Sample.answering
  = (Ok {| body := VDict [(lit "error", VStr (lit "message is required"))];
           status := 400 |},
     Sample.answering).
Proof.
  apply (chat_message_required Sample.globals_ Sample.answering
           Sample.blank_fields).
  right. exists (lit "  "). split; reflexivity.
Defined.

(** C3.  For a request with a valid message, when the call to the
    completion service raises, the view does not raise: it returns the
    reply whose [error] field is the description of the exception, with
    status 500, and it has made that one call and no other. *)
Theorem chat_service_failure (g : globals) (c : client)
    (fields : list (str * value)) (m : str) (items : list value)
    (exc : exn) :
  dict_get fields (lit "message") = VStr m →
  strip m ≠ [] →
  iterate (or_ (dict_get fields (lit "history")) (VList [])) = Ok items →
  service c (calls c)
    {| call_model := DEFAULT_MODEL g;
       call_messages := outgoing g items (strip m) |} = Raise exc →
  chat g (Json (VDict fields)) c
  = (Ok {| body := VDict [(lit "error", VStr (str_of_exn exc))];
           status := 500 |},
     {| service := service c;
        calls := calls c
                 ++ [{| call_model := DEFAULT_MODEL g;
                        call_messages := outgoing g items (strip m) |}] |}).
Proof.
  intros Hm Hne Hit Hexc.
  rewrite (chat_relays g c fields m items) by assumption.
  by rewrite Hexc.
Qed.

Lemma chat_service_failure_witness :
  chat Sample.globals_ (Json (VDict Sample.fields)) Sample.failing
  = (Ok {| body := VDict [(lit "error", VStr (lit "Connection error."))];
           status := 500 |},
     {| service := service Sample.failing;
        calls := [{| call_model := lit "gpt-4o-mini";
                     call_messages :=
                       outgoing Sample.globals_ Sample.history (lit "Hi") |}] |}).
Proof.
  apply (chat_service_failure Sample.globals_ Sample.failing Sample.fields
           (lit "Hi") Sample.history (Exception (lit "Connection error."))).
  - reflexivity.
  - vm_compute. discriminate.
  - reflexivity.
  - reflexivity.
Defined.

(** C4.  For a history that is a sequence of items, the loop keeps the
    conforming items, in their order, and drops each item that is not a
    mapping, or whose role is neither "user" nor "assistant", or whose
    content is not a string.  The request is not rejected for it: the
    view calls the service with the kept items and does not answer 400. *)
Theorem chat_history_filtering (g : globals) (c : client)
    (fields : list (str * value)) (m : str) (items : list value) :
  dict_get fields (lit "message") = VStr m →
  strip m ≠ [] →
  dict_get fields (lit "history") = VList items →
  fold_left normalize_item items []
  = List.map message_of (List.filter conforming items)
  ∧ ∃ (r : response) (c' : client),
      chat g (Json (VDict fields)) c = (Ok r, c')
      ∧ status r ≠ 400
      ∧ calls c'
        = calls c
          ++ [{| call_model := DEFAULT_MODEL g;
                 call_messages :=
                   [{| role := lit "system"; content := SYSTEM_PROMPT g |}]
                   ++ List.map message_of (List.filter conforming items)
                   ++ [{| role := lit "user"; content := strip m |}] |}].
Proof.
  intros Hm Hne Hh. split; [apply (normalize_spec items [])|].
  rewrite (chat_relays g c fields m items); try assumption.
  - eexists _, _. split; [reflexivity|]. split; [|reflexivity].
    unfold relayed. repeat case_match; simpl; discriminate.
  - rewrite Hh. apply iterate_history_list.
Qed.

Lemma chat_history_filtering_witness :
  fold_left normalize_item Sample.history []
  = List.map message_of (List.filter conforming Sample.history)
  ∧ ∃ (r : response) (c' : client),
      chat Sample.globals_ (Json (VDict Sample.fields)) Sample.answering
      = (Ok r, c')
      ∧ status r ≠ 400
      ∧ calls c'
        = calls Sample.answering
          ++ [{| call_model := DEFAULT_MODEL Sample.globals_;
                 call_messages :=
                   [{| role := lit "system";
                       content := SYSTEM_PROMPT Sample.globals_ |}]
                   ++ List.map message_of
                        (List.filter conforming Sample.history)
                   ++ [{| role := lit "user";
                          content := strip (lit "Hi") |}] |}].
Proof.
  apply (chat_history_filtering Sample.globals_ Sample.answering
           Sample.fields (lit "Hi") Sample.history).
  - reflexivity.
  - vm_compute. discriminate.
  - reflexivity.
Defined.

(** C10.  For a request whose message field is a truthy value that is
    not a string (a number, for one), normalising the message raises:
    the exception leaves the view, which returns neither the "message is
    required" reply nor any other reply, and calls no service. *)
Theorem chat_non_string_message (g : globals) (c : client)
    (fields : list (str * value)) (v : value) :
  dict_get fields (lit "message") = v →
  truthy v = true →
  (∀ s, v ≠ VStr s) →
  chat g (Json (VDict fields)) c = (Raise (no_attribute v "strip"), c).
Proof.
  intros Hv Ht Hs. apply chat_raises. rewrite Hv. unfold or_. rewrite Ht.
  destruct v; try reflexivity. by destruct (Hs s).
Qed.

Lemma chat_non_string_message_witness :
  chat Sample.globals_ (Json (VDict Sample.number_fields)) Sample.answering
  = (Raise (AttributeError (lit "'int' object has no attribute 'strip'")),
     Sample.answering).
Proof.
  apply (chat_non_string_message Sample.globals_ Sample.answering
           Sample.number_fields (VInt 42)).
  - reflexivity.
  - reflexivity.
  - intros s. discriminate.
Defined.

(** ** The process *)

Lemma step_calls (p : process) (ev : event) :
  proc_globals (step p ev) = proc_globals p
  ∧ ∃ new,
      calls (proc_client (step p ev)) = calls (proc_client p) ++ new
      ∧ Forall (λ k, head (call_messages k)
                     = Some (system_message (proc_globals p))) new.
Proof.
  destruct ev as [path f|path|name v|req]; simpl;
    try (split; [reflexivity|]; exists []; by rewrite app_nil_r).
  destruct (chat_calls (proc_globals p) req (proc_client p))
    as [_ [Hc|[rest Hc]]];
    destruct (chat (proc_globals p) req (proc_client p)) as [r c'];
    simpl in *; (split; [reflexivity|]).
  - exists []. by rewrite app_nil_r.
  - eexists. split; [exact Hc|]. by repeat constructor.
Qed.

Lemma run_calls (evs : list event) (p : process) :
  proc_globals (run p evs) = proc_globals p
  ∧ ∃ new,
      calls (proc_client (run p evs)) = calls (proc_client p) ++ new
      ∧ Forall (λ k, head (call_messages k)
                     = Some (system_message (proc_globals p))) new.
Proof.
  revert p. induction evs as [|ev evs IH]; intros p; simpl.
  - split; [reflexivity|]. exists []. by rewrite app_nil_r.
  - destruct (IH (step p ev)) as [Hg (new2 & Hc2 & Hall2)].
    destruct (step_calls p ev) as [Hg1 (new1 & Hc1 & Hall1)].
    unfold run in *. split; [congruence|].
    exists (new1 ++ new2). split.
    + by rewrite Hc2, Hc1, app_assoc.
    + apply Forall_app. split; [exact Hall1|]. by rewrite <- Hg1.
Qed.

(** C9.  [SYSTEM_PROMPT] is bound once, when the module body runs, from
    the environment and the data directory of that moment.  In every run
    of the process, whatever the requests (messages and histories) and
    whatever happens to the files and the environment meanwhile, every
    call made to the completion service starts with the same system
    message, whose content is that one string. *)
Theorem system_prompt_constant (env : environ) (dir : directory)
    (c : client) (p : process) (evs : list event) :
  start env dir c = Ok p →
  ∃ context : str,
    build_profile_context dir = Ok context
    ∧ SYSTEM_PROMPT (proc_globals (run p evs))
      = system_prompt
          (getenv_default env (lit "PERSON_NAME") (lit "Your Name")) context
    ∧ ∀ k : call,
        k ∈ calls_after (length (calls c)) (proc_client (run p evs)) →
        head (call_messages k)
        = Some {| role := lit "system";
                  content :=
                    system_prompt
                      (getenv_default env (lit "PERSON_NAME")
                         (lit "Your Name")) context |}.
Proof.
  unfold start, module_body. intros Hs.
  destruct (negb _); [discriminate Hs|].
  destruct (build_profile_context dir) as [context|exc]; [|discriminate Hs].
  simpl in Hs. injection Hs as <-.
  destruct (run_calls evs
              {| proc_globals :=
                   {| PERSON_NAME :=
                        getenv_default env (lit "PERSON_NAME")
                          (lit "Your Name");
                      PROFILE_CONTEXT := context;
                      DEFAULT_MODEL :=
                        getenv_default env (lit "OPENAI_MODEL")
                          (lit "gpt-4o-mini");
                      SYSTEM_PROMPT :=
                        system_prompt
                          (getenv_default env (lit "PERSON_NAME")
                             (lit "Your Name")) context |};
                 proc_client := c; proc_env := env; proc_dir := dir;
                 proc_replies := [] |})
    as [Hg (new & Hc & Hall)].
  exists context. split; [reflexivity|]. split.
  - by rewrite Hg.
  - intros k Hk. unfold calls_after in Hk. rewrite Hc in Hk. simpl in Hk.
    rewrite drop_app_length in Hk.
    rewrite Forall_forall in Hall. by apply Hall.
Qed.

Lemma system_prompt_constant_witness :
  ∃ context : str,
    build_profile_context ∅ = Ok context
    ∧ SYSTEM_PROMPT (proc_globals (run Sample.process_ Sample.events))
      = system_prompt
          (getenv_default Sample.env (lit "PERSON_NAME") (lit "Your Name"))
          context
    ∧ ∀ k : call,
        k ∈ calls_after (length (calls Sample.answering))
              (proc_client (run Sample.process_ Sample.events)) →
        head (call_messages k)
        = Some {| role := lit "system";
                  content :=
                    system_prompt
                      (getenv_default Sample.env (lit "PERSON_NAME")
                         (lit "Your Name")) context |}.
Proof.
  apply (system_prompt_constant Sample.env ∅ Sample.answering
           Sample.process_ Sample.events).
  reflexivity.
Defined.

(** * Further properties of the code *)

(** ** Trimming *)

Lemma lstrip_split (s : str) :
  ∃ spaces, s = spaces ++ lstrip s ∧ whitespace spaces.
Proof.
  induction s as [|c s (spaces & Hs & Hw)]; simpl.
  - exists []. split; [reflexivity | constructor].
  - destruct (isspace c) eqn:Hc.
    + exists (c :: spaces). split; [simpl; congruence|].
      by constructor.
    + exists []. split; [reflexivity | constructor].
Qed.

Lemma lstrip_head (s : str) (c : N) :
  head (lstrip s) = Some c → isspace c = false.
Proof.
  induction s as [|d s IH]; simpl; [discriminate|].
  destruct (isspace d) eqn:Hd; [exact IH|].
  simpl. congruence.
Qed.

Lemma lstrip_nil (s : str) : lstrip s = [] ↔ whitespace s.
Proof.
  unfold whitespace. induction s as [|c s IH]; simpl.
  - split; [constructor | reflexivity].
  - destruct (isspace c) eqn:Hc.
    + rewrite IH. split; [by constructor | by inversion 1].
    + split; [discriminate|]. inversion 1; congruence.
Qed.

Lemma whitespace_rev (s : str) : whitespace (rev s) ↔ whitespace s.
Proof.
  unfold whitespace. rewrite !Forall_forall.
  split; intros H c Hc; apply H; revert Hc;
    rewrite !list_elem_of_In, <- in_rev; tauto.
Qed.

Lemma whitespace_lstrip (s : str) : whitespace (lstrip s) ↔ whitespace s.
Proof.
  destruct (lstrip_split s) as (spaces & Hs & Hw).
  split; intros H.
  - rewrite Hs. by apply Forall_app.
  - rewrite Hs in H. by apply Forall_app in H as [_ H].
Qed.

Lemma strip_nil (s : str) : strip s = [] ↔ whitespace s.
Proof.
  unfold strip, rstrip. rewrite <- whitespace_lstrip, <- whitespace_rev.
  rewrite <- lstrip_nil. split; intros H.
  - apply (f_equal (@rev N)) in H. by rewrite rev_involutive in H.
  - by rewrite H.
Qed.

Lemma rev_reverse {A} (l : list A) : rev l = reverse l.
Proof. apply rev_alt. Qed.

Lemma strip_last (s : str) (c : N) :
  last (strip s) = Some c → isspace c = false.
Proof.
  unfold strip, rstrip. rewrite rev_reverse, last_reverse.
  apply lstrip_head.
Qed.

Lemma strip_head (s : str) (c : N) :
  head (strip s) = Some c → isspace c = false.
Proof.
  unfold strip, rstrip. rewrite rev_reverse, head_reverse.
  set (u := lstrip s).
  destruct (lstrip_split (rev u)) as (spaces & Hs & _).
  intros Hl.
  assert (Hlast : last (rev u) = Some c).
  { rewrite Hs, last_app. by rewrite Hl. }
  rewrite rev_reverse, last_reverse in Hlast.
  by apply lstrip_head in Hlast.
Qed.

(** ** The PDF reader *)

Lemma join_cons_nonempty (sep p : str) (rest : list str) :
  p ≠ [] → join sep (p :: rest) ≠ [].
Proof. destruct p; [congruence|]. by destruct rest. Qed.

Lemma join_app (sep : str) (a b : list str) :
  a ≠ [] → b ≠ [] → join sep (a ++ b) = join sep a ++ sep ++ join sep b.
Proof.
  intros Ha Hb. induction a as [|p a IH]; [congruence|].
  destruct a as [|q a].
  - simpl. by destruct b.
  - change (join sep ((p :: q :: a) ++ b))
      with (p ++ sep ++ join sep ((q :: a) ++ b)).
    rewrite IH by discriminate.
    change (join sep (p :: q :: a)) with (p ++ sep ++ join sep (q :: a)).
    by rewrite <- !app_assoc.
Qed.

Lemma filter_nonempty_head (texts : list str) (t : str) (rest : list str) :
  List.filter nonempty texts = t :: rest → t ≠ [].
Proof.
  intros H.
  assert (Hin : In t (List.filter nonempty texts)) by (rewrite H; by left).
  apply filter_In in Hin as [_ Hn]. by apply nonempty_true.
Qed.

Lemma join_filter_nil (texts : list str) :
  join nl (List.filter nonempty texts) = []
  ↔ List.filter nonempty texts = [].
Proof.
  destruct (List.filter nonempty texts) as [|t rest] eqn:E; [by split|].
  split; [|discriminate]. intros Hj.
  by destruct (join_cons_nonempty nl t rest (filter_nonempty_head _ _ _ E)).
Qed.

Lemma page_texts_app (a b : list page) :
  page_texts (a ++ b)
  = ta ← page_texts a; tb ← page_texts b; Ok (ta ++ tb).
Proof.
  induction a as [|p a IH]; simpl.
  - by destruct (page_texts b).
  - destruct p as [extracted|exc]; simpl; [|reflexivity].
    rewrite IH. destruct (page_texts a) as [ta|exc]; simpl; [|reflexivity].
    by destruct (page_texts b).
Qed.

(** The pages all give no text exactly when the page texts are there and
    none of them passes the filter. *)
Lemma page_texts_no_text (pages : list page) :
  Forall no_text pages
  ↔ ∃ texts, page_texts pages = Ok texts
             ∧ List.filter nonempty texts = [].
Proof.
  unfold no_text. induction pages as [|p pages IH]; simpl.
  - split; [by exists [] | constructor].
  - split.
    + inversion 1 as [|? ? Hp Hrest]; subst.
      apply IH in Hrest as (texts & -> & Hf).
      destruct Hp as [-> | ->]; simpl; by eexists.
    + intros (texts & Ht & Hf).
      destruct p as [extracted|exc]; [|discriminate Ht]. simpl in Ht.
      destruct (page_texts pages) as [rest|exc]; [|discriminate Ht].
      simpl in Ht. injection Ht as <-. simpl in Hf.
      destruct extracted as [[|c t]|]; simpl in Hf; try discriminate Hf;
        (constructor; [tauto | apply IH; by eexists]).
Qed.

Lemma pdf_text_nil (f : file) :
  pdf_text f = Ok []
  ↔ ∃ pages, file_pages f = Ok pages ∧ Forall no_text pages.
Proof.
  unfold pdf_text. split.
  - destruct (file_pages f) as [pages|exc]; [|discriminate]. simpl.
    destruct (page_texts pages) as [texts|exc] eqn:E; [|discriminate].
    simpl. intros [= Hj]. exists pages. split; [reflexivity|].
    apply page_texts_no_text. exists texts. by rewrite <- join_filter_nil.
  - intros (pages & -> & Hp). simpl.
    apply page_texts_no_text in Hp as (texts & -> & Hf). simpl.
    by rewrite Hf.
Qed.

(** X1.  A page whose extraction gives [None] or the empty string leaves
    no trace in what the reader gives: the same as for the file without
    that page. *)
Theorem read_pdf_skips_empty_pages (dir : directory) (path : str) (f : file)
    (before after : list page) (p : page) :
  dir !! path = Some f →
  file_pages f = Ok (before ++ p :: after) →
  p = Ok None ∨ p = Ok (Some []) →
  _read_pdf_file dir path
  = _read_pdf_file
      (<[path := {| file_text := file_text f;
                    file_pages := Ok (before ++ after) |}]> dir) path.
Proof.
  intros Hf Hp Hpage. rewrite !read_pdf_file_spec.
  unfold extracted_at. rewrite Hf, lookup_insert_eq.
  unfold pdf_text. rewrite Hp. cbn [file_pages]. simpl.
  rewrite !page_texts_app.
  destruct (page_texts before) as [tb|exc]; simpl; [|reflexivity].
  destruct Hpage as [-> | ->]; simpl;
    destruct (page_texts after) as [ta|exc]; simpl; try reflexivity;
    by rewrite !List.filter_app.
Qed.

Lemma read_pdf_skips_empty_pages_witness :
  _read_pdf_file {[ lit "resume.pdf" := Cases.three_pages ]}
    (lit "resume.pdf")
  = _read_pdf_file
      (<[lit "resume.pdf" := Cases.two_pages]>
         {[ lit "resume.pdf" := Cases.three_pages ]})
      (lit "resume.pdf").
Proof.
  apply (read_pdf_skips_empty_pages
           {[ lit "resume.pdf" := Cases.three_pages ]} (lit "resume.pdf")
           Cases.three_pages [Ok (Some (lit "one"))] [Ok (Some (lit "two"))]
           (Ok (Some []))).
  - reflexivity.
  - reflexivity.
  - by right.
Defined.

(** X2.  The PDF reader returns the empty string in two cases only: the
    file is absent, or it can be read and none of its pages gives any
    text. *)
Theorem read_pdf_empty_iff (dir : directory) (path : str) :
  _read_pdf_file dir path = Ok []
  ↔ dir !! path = None
    ∨ ∃ f pages, dir !! path = Some f
                 ∧ file_pages f = Ok pages
                 ∧ Forall no_text pages.
Proof.
  rewrite read_pdf_file_spec. unfold extracted_at.
  destruct (dir !! path) as [f|].
  - rewrite pdf_text_nil. split.
    + intros (pages & Hp & Hn). right. by exists f, pages.
    + intros [|(f' & pages & [= <-] & Hp & Hn)]; [discriminate|].
      by exists pages.
  - split; [by left | reflexivity].
Qed.

(** X3.  Reading a PDF whose pages are those of two PDFs, one after the
    other, gives the two texts joined by one newline when both have
    text. *)
Theorem read_pdf_concatenation (dir : directory) (p1 p2 p12 : str)
    (f1 f2 f12 : file) (pages1 pages2 : list page) (t1 t2 : str) :
  dir !! p1 = Some f1 →
  dir !! p2 = Some f2 →
  dir !! p12 = Some f12 →
  file_pages f1 = Ok pages1 →
  file_pages f2 = Ok pages2 →
  file_pages f12 = Ok (pages1 ++ pages2) →
  pdf_text f1 = Ok t1 →
  pdf_text f2 = Ok t2 →
  t1 ≠ [] →
  t2 ≠ [] →
  _read_pdf_file dir p1 = Ok t1
  ∧ _read_pdf_file dir p2 = Ok t2
  ∧ _read_pdf_file dir p12 = Ok (t1 ++ nl ++ t2).
Proof.
  intros H1 H2 H12 Hp1 Hp2 Hp12 Ht1 Ht2 Hn1 Hn2.
  rewrite !read_pdf_file_spec. unfold extracted_at.
  rewrite H1, H2, H12. do 2 (split; [assumption|]).
  unfold pdf_text in *. rewrite Hp1 in Ht1. rewrite Hp2 in Ht2.
  rewrite Hp12. simpl in *. rewrite page_texts_app.
  destruct (page_texts pages1) as [ta|exc]; [|discriminate Ht1].
  destruct (page_texts pages2) as [tb|exc]; [|discriminate Ht2].
  simpl in *. injection Ht1 as <-. injection Ht2 as <-.
  rewrite List.filter_app. f_equal.
  apply join_app; intros E; [apply Hn1 | apply Hn2]; by rewrite E.
Qed.

Lemma read_pdf_concatenation_witness :
  _read_pdf_file
    {[ lit "a.pdf" := Sample.pdf_file [Some (lit "one")];
       lit "b.pdf" := Sample.pdf_file [Some (lit "two")];
       lit "ab.pdf" := Cases.two_pages ]} (lit "a.pdf") = Ok (lit "one")
  ∧ _read_pdf_file
      {[ lit "a.pdf" := Sample.pdf_file [Some (lit "one")];
         lit "b.pdf" := Sample.pdf_file [Some (lit "two")];
         lit "ab.pdf" := Cases.two_pages ]} (lit "b.pdf") = Ok (lit "two")
  ∧ _read_pdf_file
      {[ lit "a.pdf" := Sample.pdf_file [Some (lit "one")];
         lit "b.pdf" := Sample.pdf_file [Some (lit "two")];
         lit "ab.pdf" := Cases.two_pages ]} (lit "ab.pdf")
    = Ok (lit "one" ++ nl ++ lit "two").
Proof.
  apply (read_pdf_concatenation _ _ _ _
           (Sample.pdf_file [Some (lit "one")])
           (Sample.pdf_file [Some (lit "two")]) Cases.two_pages
           [Ok (Some (lit "one"))] [Ok (Some (lit "two"))]).
  - reflexivity.
  - reflexivity.
  - reflexivity.
  - reflexivity.
  - reflexivity.
  - reflexivity.
  - reflexivity.
  - reflexivity.
  - vm_compute. discriminate.
  - vm_compute. discriminate.
Defined.

(** ** The fallback chain *)

(** X4.  When the text file of a section is absent or blank and its PDF
    gives text that is not blank, [load_section] returns the text of the
    PDF; for the resume too, whose alternate PDF is then not used. *)
Theorem load_section_pdf_second (dir : directory) (name : str) (f : file)
    (txt text : str) :
  text_at dir (name ++ lit ".txt") = Ok txt →
  blank txt →
  dir !! (name ++ lit ".pdf") = Some f →
  pdf_text f = Ok text →
  strip text ≠ [] →
  load_section dir name = Ok text.
Proof.
  intros Htxt Hb Hf Ht Hne. rewrite load_section_spec.
  unfold section_text, extracted_at. rewrite Htxt, Hf, Ht. simpl.
  destruct (decide (blank txt)) as [_|Hc]; [|contradiction]. simpl.
  apply decide_False. unfold blank. tauto.
Qed.

Lemma load_section_pdf_second_witness :
  load_section Cases.pdf_and_alternate (lit "resume")
  = Ok (lit "PDF resume").
Proof.
  apply (load_section_pdf_second Cases.pdf_and_alternate (lit "resume")
           (Sample.pdf_file [Some (lit "PDF resume")]) (lit " ")).
  - reflexivity.
  - reflexivity.
  - reflexivity.
  - reflexivity.
  - vm_compute. discriminate.
Defined.

(** X5.  [load_section] looks at no other file than the text file and the
    PDF of the section, and for the resume the alternate PDF: two data
    directories that agree on these give the same result. *)
Theorem load_section_reads_only (dir dir' : directory) (name : str) :
  dir !! (name ++ lit ".txt") = dir' !! (name ++ lit ".txt") →
  dir !! (name ++ lit ".pdf") = dir' !! (name ++ lit ".pdf") →
  (name = lit "resume" → dir !! alt_resume = dir' !! alt_resume) →
  load_section dir name = load_section dir' name.
Proof.
  intros Htxt Hpdf Halt. rewrite !load_section_spec.
  unfold section_text, text_at, extracted_at. rewrite Htxt, Hpdf.
  destruct (decide (name = lit "resume")) as [Hn|Hn].
  - by rewrite (Halt Hn).
  - destruct (match dir' !! (name ++ lit ".txt") with
              | Some f => file_text f
              | None => Ok []
              end) as [txt|exc]; simpl; [|reflexivity].
    destruct (if decide (blank txt) then _ else _) as [text|exc]; simpl;
      [|reflexivity].
    rewrite !decide_False by tauto. reflexivity.
Qed.

Lemma load_section_reads_only_witness :
  load_section Cases.pdf_and_alternate (lit "resume")
  = load_section Cases.with_stray_file (lit "resume").
Proof.
  apply (load_section_reads_only Cases.pdf_and_alternate
           Cases.with_stray_file (lit "resume")).
  - reflexivity.
  - reflexivity.
  - intros _. reflexivity.
Defined.

(** X6.  When both sections load, [build_profile_context] returns the
    placeholder exactly when neither has text that is not blank: no
    content of the files makes the context equal to the placeholder
    otherwise. *)
Theorem build_profile_context_placeholder_iff (dir : directory)
    (resume linkedin : str) :
  load_section dir (lit "resume") = Ok resume →
  load_section dir (lit "linkedin") = Ok linkedin →
  (build_profile_context dir = Ok no_profile_data
   ↔ blank resume ∧ blank linkedin).
Proof.
  intros Er El. unfold build_profile_context. rewrite Er, El. simpl.
  unfold blank.
  destruct (nonempty (strip resume)) eqn:Hr;
    destruct (nonempty (strip linkedin)) eqn:Hl; simpl;
    try apply nonempty_true in Hr; try apply nonempty_true in Hl;
    try apply nonempty_false in Hr; try apply nonempty_false in Hl;
    (split; [intros H | intros [H1 H2]]);
    try tauto; try congruence; discriminate H.
Qed.

Lemma build_profile_context_placeholder_iff_witness :
  build_profile_context Sample.only_alternate = Ok no_profile_data
  ↔ blank (lit "page one" ++ nl ++ lit "page two") ∧ blank [].
Proof.
  apply (build_profile_context_placeholder_iff Sample.only_alternate).
  - reflexivity.
  - reflexivity.
Defined.

(** X23.  [load_section] raises only on a file that is present and that
    its reader refuses: the text file of the section, its PDF or, for
    the resume, the alternate PDF.  The exception is that of the reader;
    a missing file never makes it raise. *)
Theorem load_section_raise_cause (dir : directory) (name : str) (exc : exn) :
  load_section dir name = Raise exc →
  ∃ f,
    (dir !! (name ++ lit ".txt") = Some f ∧ file_text f = Raise exc)
    ∨ (dir !! (name ++ lit ".pdf") = Some f ∧ pdf_text f = Raise exc)
    ∨ (name = lit "resume"
       ∧ dir !! alt_resume = Some f ∧ pdf_text f = Raise exc).
Proof.
  rewrite load_section_spec. unfold section_text, text_at, extracted_at.
  destruct (dir !! (name ++ lit ".txt")) as [ft|] eqn:Et.
  - destruct (file_text ft) as [txt|e] eqn:Eft; simpl.
    + destruct (decide (blank txt)); simpl.
      * destruct (dir !! (name ++ lit ".pdf")) as [fp|] eqn:Ep.
        -- destruct (pdf_text fp) as [pdf|e] eqn:Efp; simpl.
           ++ destruct (decide (name = lit "resume" ∧ blank pdf))
                as [[Hn _]|_]; [|discriminate].
              destruct (dir !! alt_resume) as [fa|]; [|discriminate].
              intros H. exists fa. right; right. by repeat split.
           ++ intros [= ->]. exists fp. right; left. by split.
        -- simpl.
           destruct (decide (name = lit "resume" ∧ blank []))
             as [[Hn _]|_]; [|discriminate].
           destruct (dir !! alt_resume) as [fa|]; [|discriminate].
           intros H. exists fa. right; right. by repeat split.
      * destruct (decide (name = lit "resume" ∧ blank txt)) as [[_ Hb]|_];
          [contradiction | discriminate].
    + intros [= ->]. exists ft. left. by split.
  - simpl. destruct (decide (blank [])) as [_|Hc]; [|by destruct Hc]. simpl.
    destruct (dir !! (name ++ lit ".pdf")) as [fp|] eqn:Ep.
    + destruct (pdf_text fp) as [pdf|e] eqn:Efp; simpl.
      * destruct (decide (name = lit "resume" ∧ blank pdf))
          as [[Hn _]|_]; [|discriminate].
        destruct (dir !! alt_resume) as [fa|]; [|discriminate].
        intros H. exists fa. right; right. by repeat split.
      * intros [= ->]. exists fp. right; left. by split.
    + simpl.
      destruct (decide (name = lit "resume" ∧ blank []))
        as [[Hn _]|_]; [|discriminate].
      destruct (dir !! alt_resume) as [fa|]; [|discriminate].
      intros H. exists fa. right; right. by repeat split.
Qed.

Lemma load_section_raise_cause_witness :
  ∃ f,
    (Sample.empty_resume_pdf !! (lit "resume" ++ lit ".txt") = Some f
     ∧ file_text f = Raise (Exception (lit "Cannot read an empty file")))
    ∨ (Sample.empty_resume_pdf !! (lit "resume" ++ lit ".pdf") = Some f
       ∧ pdf_text f = Raise (Exception (lit "Cannot read an empty file")))
    ∨ (lit "resume" = lit "resume"
       ∧ Sample.empty_resume_pdf !! alt_resume = Some f
       ∧ pdf_text f = Raise (Exception (lit "Cannot read an empty file"))).
Proof.
  apply (load_section_raise_cause Sample.empty_resume_pdf (lit "resume")).
  reflexivity.
Defined.

(** ** The module body *)

(** X7.  When [OPENAI_API_KEY] is unset or empty the module body raises
    the [RuntimeError] that says so, whatever the data directory holds:
    the check comes before any file is read.  When the key is set, the
    module body binds its globals exactly when [build_profile_context]
    returns, with that context, and raises what the loader raises
    otherwise. *)
Theorem module_body_needs_api_key (env : environ) (dir : directory) :
  match env !! lit "OPENAI_API_KEY" with
  | Some (_ :: _) =>
      match build_profile_context dir with
      | Ok context =>
          ∃ g, module_body env dir = Ok g ∧ PROFILE_CONTEXT g = context
      | Raise exc => module_body env dir = Raise exc
      end
  | _ => module_body env dir = Raise (RuntimeError api_key_unset)
  end.
Proof.
  unfold module_body, getenv.
  destruct (env !! lit "OPENAI_API_KEY") as [[|c k]|]; try reflexivity.
  simpl. destruct (build_profile_context dir) as [context|exc]; simpl.
  - by eexists.
  - reflexivity.
Qed.

(** ** The view, request by request *)

(** A request with a usable message whose history cannot be iterated. *)
Lemma chat_history_raises (g : globals) (c : client)
    (fields : list (str * value)) (m : str) (exc : exn) :
  dict_get fields (lit "message") = VStr m →
  strip m ≠ [] →
  iterate (or_ (dict_get fields (lit "history")) (VList [])) = Raise exc →
  chat g (Json (VDict fields)) c = (Raise exc, c).
Proof.
  intros Hm Hne Hit.
  destruct fields as [|kv fields]; [discriminate Hm|].
  unfold chat, lift, mbind, M_bind, get_json, or_.
  change (truthy (VDict (kv :: fields))) with true. cbv iota.
  unfold get. rewrite Hm.
  assert (Hm' : m ≠ []) by (intros ->; by apply Hne).
  change (truthy (VStr m)) with (nonempty m).
  apply nonempty_true in Hm' as ->.
  change (strip_method (VStr m)) with (Ok (strip m)). cbv iota beta.
  apply nonempty_true in Hne as Hne'. rewrite Hne'.
  change (negb true) with false. cbv iota.
  unfold or_ in Hit. by rewrite Hit.
Qed.

(** A body that is falsy is taken for the empty dict. *)
Lemma chat_falsy_json (g : globals) (c : client) (v : value) :
  truthy v = false → chat g (Json v) c = chat g (Json (VDict [])) c.
Proof.
  intros Hv. unfold chat, lift, mbind, M_bind, get_json, or_.
  rewrite Hv. reflexivity.
Qed.

(** The three ways a request can go: an exception leaves the view before
    any call; the 400 reply, before any call; or one call, with the
    outgoing sequence of some items and some trimmed text, and its answer
    relayed. *)
Lemma chat_cases (g : globals) (req : request) (c : client) :
  (∃ exc, chat g req c = (Raise exc, c))
  ∨ chat g req c = (Ok (error_reply (lit "message is required") 400), c)
  ∨ ∃ items m,
      strip m ≠ []
      ∧ chat g req c
        = (Ok (relayed
                 (service c (calls c)
                    {| call_model := DEFAULT_MODEL g;
                       call_messages := outgoing g items (strip m) |})),
           {| service := service c;
              calls := calls c
                       ++ [{| call_model := DEFAULT_MODEL g;
                              call_messages :=
                                outgoing g items (strip m) |}] |}).
Proof.
  destruct req as [d|v]; [left; by eexists|].
  destruct (truthy v) eqn:Hv.
  - destruct v as [| | | | | |fields];
      try (left; eexists; unfold chat, lift, mbind, M_bind, get_json, or_;
           rewrite Hv; reflexivity).
    destruct (dict_get fields (lit "message")) as [| | | |m| |] eqn:Hm.
    + right; left. apply chat_rejects. by rewrite Hm.
    + destruct b.
      * left. eexists. apply chat_raises. by rewrite Hm.
      * right; left. apply chat_rejects. by rewrite Hm.
    + destruct (truthy (VInt z)) eqn:Hz.
      * left. eexists. apply chat_raises. rewrite Hm. unfold or_.
        by rewrite Hz.
      * right; left. apply chat_rejects. rewrite Hm. unfold or_.
        by rewrite Hz.
    + destruct (truthy (VFloat f)) eqn:Hf.
      * left. eexists. apply chat_raises. rewrite Hm. unfold or_.
        by rewrite Hf.
      * right; left. apply chat_rejects. rewrite Hm. unfold or_.
        by rewrite Hf.
    + destruct (decide (strip m = [])) as [Hs|Hs].
      * right; left. apply chat_rejects. rewrite Hm. unfold or_.
        destruct m; simpl; [reflexivity | by rewrite Hs].
      * destruct (iterate (or_ (dict_get fields (lit "history")) (VList [])))
          as [items|exc] eqn:Hit.
        -- right; right. exists items, m. split; [exact Hs|].
           by apply (chat_relays g c fields m items).
        -- left. exists exc. by apply (chat_history_raises g c fields m exc).
    + destruct l.
      * right; left. apply chat_rejects. by rewrite Hm.
      * left. eexists. apply chat_raises. by rewrite Hm.
    + destruct items.
      * right; left. apply chat_rejects. by rewrite Hm.
      * left. eexists. apply chat_raises. by rewrite Hm.
  - right; left. rewrite chat_falsy_json by exact Hv.
    by apply chat_rejects.
Qed.

(** X8.  When the service answers, the view returns status 200 with the
    content of the first choice under [reply] (null when that content is
    [None]); the other choices are not looked at, and one call was
    made. *)
Theorem chat_relays_first_choice (g : globals) (c : client)
    (fields : list (str * value)) (m : str) (items : list value)
    (first : option str) (others : list (option str)) :
  dict_get fields (lit "message") = VStr m →
  strip m ≠ [] →
  iterate (or_ (dict_get fields (lit "history")) (VList [])) = Ok items →
  service c (calls c)
    {| call_model := DEFAULT_MODEL g;
       call_messages := outgoing g items (strip m) |}
  = Ok {| choices := first :: others |} →
  chat g (Json (VDict fields)) c
  = (Ok {| body := VDict [(lit "reply", content_value first)];
           status := 200 |},
     {| service := service c;
        calls := calls c
                 ++ [{| call_model := DEFAULT_MODEL g;
                        call_messages := outgoing g items (strip m) |}] |}).
Proof.
  intros Hm Hne Hit Hans.
  rewrite (chat_relays g c fields m items) by assumption.
  rewrite Hans. by destruct first.
Qed.

Lemma chat_relays_first_choice_witness :
  chat Sample.globals_ (Json (VDict Sample.fields)) Cases.two_choices
  = (Ok {| body := VDict [(lit "reply", VStr (lit "first"))];
           status := 200 |},
     {| service := service Cases.two_choices;
        calls := [{| call_model := lit "gpt-4o-mini";
                     call_messages :=
                       outgoing Sample.globals_ Sample.history (lit "Hi") |}] |}).
Proof.
  apply (chat_relays_first_choice Sample.globals_ Cases.two_choices
           Sample.fields (lit "Hi") Sample.history
           (Some (lit "first")) [Some (lit "second")]).
  - reflexivity.
  - vm_compute. discriminate.
  - reflexivity.
  - reflexivity.
Defined.

(** X9.  When the service answers with no choice at all, indexing the
    choices raises inside the [try]: the view returns status 500 with the
    description of the [IndexError] under [error], and does not raise. *)
Theorem chat_no_choice (g : globals) (c : client)
    (fields : list (str * value)) (m : str) (items : list value) :
  dict_get fields (lit "message") = VStr m →
  strip m ≠ [] →
  iterate (or_ (dict_get fields (lit "history")) (VList [])) = Ok items →
  service c (calls c)
    {| call_model := DEFAULT_MODEL g;
       call_messages := outgoing g items (strip m) |}
  = Ok {| choices := [] |} →
  chat g (Json (VDict fields)) c
  = (Ok {| body := VDict [(lit "error",
                           VStr (lit "list index out of range"))];
           status := 500 |},
     {| service := service c;
        calls := calls c
                 ++ [{| call_model := DEFAULT_MODEL g;
                        call_messages := outgoing g items (strip m) |}] |}).
Proof.
  intros Hm Hne Hit Hans.
  rewrite (chat_relays g c fields m items) by assumption.
  by rewrite Hans.
Qed.

Lemma chat_no_choice_witness :
  chat Sample.globals_ (Json (VDict Sample.fields)) Cases.no_choice
  = (Ok {| body := VDict [(lit "error",
                           VStr (lit "list index out of range"))];
           status := 500 |},
     {| service := service Cases.no_choice;
        calls := [{| call_model := lit "gpt-4o-mini";
                     call_messages :=
                       outgoing Sample.globals_ Sample.history (lit "Hi") |}] |}).
Proof.
  apply (chat_no_choice Sample.globals_ Cases.no_choice Sample.fields
           (lit "Hi") Sample.history).
  - reflexivity.
  - vm_compute. discriminate.
  - reflexivity.
  - reflexivity.
Defined.

(** X10.  A body that is JSON but falsy (null, false, zero, the empty
    string, list or object) is taken for an empty object: the view
    answers 400 "message is required" and calls no service. *)
Theorem chat_falsy_body (g : globals) (c : client) (v : value) :
  truthy v = false →
  chat g (Json v) c
  = (Ok {| body := VDict [(lit "error", VStr (lit "message is required"))];
           status := 400 |},
     c).
Proof.
  intros Hv. rewrite chat_falsy_json by exact Hv. by apply chat_rejects.
Qed.

Lemma chat_falsy_body_witness :
  chat Sample.globals_ (Json (VList [])) Sample.answering
  = (Ok {| body := VDict [(lit "error", VStr (lit "message is required"))];
           status := 400 |},
     Sample.answering).
Proof.
  apply (chat_falsy_body Sample.globals_ Sample.answering (VList [])).
  reflexivity.
Defined.

(** X11.  A body that is truthy JSON but not an object (a number, a
    string, a list that is not empty) has no [get]: the
    [AttributeError] leaves the view, which returns no reply and calls no
    service. *)
Theorem chat_body_not_object (g : globals) (c : client) (v : value) :
  truthy v = true →
  (∀ fields, v ≠ VDict fields) →
  chat g (Json v) c = (Raise (no_attribute v "get"), c).
Proof.
  intros Hv Hd. unfold chat, lift, mbind, M_bind, get_json, or_.
  rewrite Hv. destruct v; try reflexivity. by destruct (Hd items).
Qed.

Lemma chat_body_not_object_witness :
  chat Sample.globals_ (Json (VList [VInt 1])) Sample.answering
  = (Raise (AttributeError (lit "'list' object has no attribute 'get'")),
     Sample.answering).
Proof.
  apply (chat_body_not_object Sample.globals_ Sample.answering
           (VList [VInt 1])).
  - reflexivity.
  - intros fields. discriminate.
Defined.

(** X12.  A message field that is falsy, of whatever type (null, false,
    zero, an empty list or object), is taken for the empty string: the
    view answers 400 "message is required" and calls no service. *)
Theorem chat_falsy_message (g : globals) (c : client)
    (fields : list (str * value)) :
  truthy (dict_get fields (lit "message")) = false →
  chat g (Json (VDict fields)) c
  = (Ok {| body := VDict [(lit "error", VStr (lit "message is required"))];
           status := 400 |},
     c).
Proof.
  intros Hv. apply chat_rejects. unfold or_. by rewrite Hv.
Qed.

Lemma chat_falsy_message_witness :
  chat Sample.globals_ (Json (VDict Cases.null_message)) Sample.answering
  = (Ok {| body := VDict [(lit "error", VStr (lit "message is required"))];
           status := 400 |},
     Sample.answering).
Proof.
  apply (chat_falsy_message Sample.globals_ Sample.answering
           Cases.null_message).
  reflexivity.
Defined.

(** X13.  With a valid message and a history that is truthy but not
    iterable (true, a number that is not zero), the loop over the history
    raises a [TypeError] that leaves the view: no reply is returned and
    no service is called. *)
Theorem chat_history_not_iterable (g : globals) (c : client)
    (fields : list (str * value)) (m : str) (h : value) :
  dict_get fields (lit "message") = VStr m →
  strip m ≠ [] →
  dict_get fields (lit "history") = h →
  truthy h = true →
  (∃ b, h = VBool b) ∨ (∃ z, h = VInt z) ∨ (∃ f, h = VFloat f) →
  chat g (Json (VDict fields)) c = (Raise (not_iterable h), c).
Proof.
  intros Hm Hne Hh Ht Hkind.
  apply (chat_history_raises g c fields m); try assumption.
  rewrite Hh. unfold or_. rewrite Ht.
  by destruct Hkind as [[b ->]|[[z ->]|[f ->]]].
Qed.

Lemma chat_history_not_iterable_witness :
  chat Sample.globals_ (Json (VDict Cases.number_history)) Sample.answering
  = (Raise (TypeError (lit "'int' object is not iterable")),
     Sample.answering).
Proof.
  apply (chat_history_not_iterable Sample.globals_ Sample.answering
           Cases.number_history (lit "Hi") (VInt 7)).
  - reflexivity.
  - vm_compute. discriminate.
  - reflexivity.
  - reflexivity.
  - right; left. by exists 7%Z.
Defined.

Lemma filtered_history_strings (l : list value) :
  (∀ v, In v l → ∃ s, v = VStr s) → filtered_history l = [].
Proof.
  intros H. unfold filtered_history.
  induction l as [|v l IH]; [reflexivity|]. simpl.
  destruct (H v (or_introl eq_refl)) as [s ->]. simpl.
  apply IH. intros w Hw. apply H. by right.
Qed.

(** X14.  With a valid message and a history that is a string or an
    object rather than a list, the loop runs over characters or keys and
    keeps none of them: the call carries the system message and the user
    message only. *)
Theorem chat_history_not_a_list (g : globals) (c : client)
    (fields : list (str * value)) (m : str) :
  dict_get fields (lit "message") = VStr m →
  strip m ≠ [] →
  (∃ s, dict_get fields (lit "history") = VStr s)
  ∨ (∃ kvs, dict_get fields (lit "history") = VDict kvs) →
  calls (chat g (Json (VDict fields)) c).2
  = calls c
    ++ [{| call_model := DEFAULT_MODEL g;
           call_messages :=
             [{| role := lit "system"; content := SYSTEM_PROMPT g |};
              {| role := lit "user"; content := strip m |}] |}].
Proof.
  intros Hm Hne Hh.
  assert (∃ items, iterate (or_ (dict_get fields (lit "history")) (VList []))
                   = Ok items
                   ∧ filtered_history items = []) as (items & Hit & Hf).
  { destruct Hh as [[s ->]|[kvs ->]].
    - destruct s as [|ch s]; [by exists []|].
      eexists. split; [reflexivity|].
      apply filtered_history_strings. intros v Hv.
      apply in_map_iff in Hv as (x & <- & _). eauto.
    - destruct kvs as [|kv kvs]; [by exists []|].
      eexists. split; [reflexivity|].
      apply filtered_history_strings. intros v Hv.
      apply in_map_iff in Hv as (x & <- & _). eauto. }
  rewrite (chat_relays g c fields m items) by assumption.
  simpl. unfold outgoing. by rewrite Hf.
Qed.

Lemma chat_history_not_a_list_witness :
  calls (chat Sample.globals_ (Json (VDict Cases.string_history))
           Sample.answering).2
  = [{| call_model := lit "gpt-4o-mini";
        call_messages :=
          [{| role := lit "system";
              content := system_prompt (lit "Ada") no_profile_data |};
           {| role := lit "user"; content := lit "Hi" |}] |}].
Proof.
  apply (chat_history_not_a_list Sample.globals_ Sample.answering
           Cases.string_history (lit "Hi")).
  - reflexivity.
  - vm_compute. discriminate.
  - left. by exists (lit "earlier").
Defined.

(** ** Invariants of the view *)

Lemma calls_made_none (c : client) : calls_made c c = [].
Proof. unfold calls_made. by apply drop_all. Qed.

Lemma calls_made_one (c : client) (k : call) (s : list call → call → result completion) :
  calls_made c {| service := s; calls := calls c ++ [k] |} = [k].
Proof. unfold calls_made. simpl. by rewrite drop_app_length. Qed.

(** The calls of one request: none, or one with the outgoing sequence of
    some items and some trimmed text. *)
Lemma chat_calls_made (g : globals) (req : request) (c : client) :
  calls_made c (chat g req c).2 = []
  ∨ ∃ items m,
      strip m ≠ []
      ∧ calls_made c (chat g req c).2
        = [{| call_model := DEFAULT_MODEL g;
              call_messages := outgoing g items (strip m) |}].
Proof.
  destruct (chat_cases g req c) as [[exc ->]|[->|(items & m & Hs & ->)]].
  - left. apply calls_made_none.
  - left. apply calls_made_none.
  - right. exists items, m. split; [exact Hs|]. apply calls_made_one.
Qed.

Lemma filtered_history_roles (items : list value) :
  Forall (λ msg, chat_role (role msg)) (filtered_history items).
Proof.
  unfold filtered_history. apply List.Forall_map, List.Forall_forall.
  intros item Hin. apply filter_In in Hin as [_ Hc].
  unfold conforming in Hc. apply andb_true_iff in Hc as [Hc _].
  apply andb_true_iff in Hc as [_ Hr].
  unfold role_ok in Hr. unfold message_of. simpl.
  destruct (field item (lit "role")); try discriminate Hr.
  by apply bool_decide_eq_true in Hr.
Qed.

(** X15.  Whatever the request, a call made by the view carries exactly
    this: the system message first, then messages whose role is "user"
    or "assistant", then a last message of role "user".  No item of the
    history can bring in a second system message. *)
Theorem chat_call_roles (g : globals) (req : request) (c : client)
    (k : call) :
  k ∈ calls_made c (chat g req c).2 →
  ∃ middle final,
    call_messages k
    = {| role := lit "system"; content := SYSTEM_PROMPT g |}
      :: middle ++ [final]
    ∧ Forall (λ msg, chat_role (role msg)) middle
    ∧ role final = lit "user".
Proof.
  intros Hk.
  destruct (chat_calls_made g req c) as [E|(items & m & _ & E)];
    rewrite E in Hk.
  - by apply elem_of_nil in Hk.
  - apply list_elem_of_singleton in Hk as ->.
    exists (filtered_history items), {| role := lit "user"; content := strip m |}.
    split; [reflexivity|]. split; [apply filtered_history_roles | reflexivity].
Qed.

Lemma chat_call_roles_witness :
  ∃ middle final,
    call_messages
      {| call_model := lit "gpt-4o-mini";
         call_messages :=
           outgoing Sample.globals_ Sample.history (lit "Hi") |}
    = {| role := lit "system"; content := SYSTEM_PROMPT Sample.globals_ |}
      :: middle ++ [final]
    ∧ Forall (λ msg, chat_role (role msg)) middle
    ∧ role final = lit "user".
Proof.
  apply (chat_call_roles Sample.globals_ (Json (VDict Sample.fields))
           Sample.answering).
  vm_compute. by left.
Defined.

Lemma message_of_item_of (msg : message) : message_of (item_of msg) = msg.
Proof. by destruct msg. Qed.

Lemma conforming_item_of (msg : message) :
  chat_role (role msg) → conforming (item_of msg) = true.
Proof.
  intros Hr. unfold conforming, role_ok, content_ok.
  change (field (item_of msg) (lit "role")) with (VStr (role msg)).
  change (field (item_of msg) (lit "content")) with (VStr (content msg)).
  cbv iota beta. by rewrite bool_decide_eq_true_2.
Qed.

(** X16.  A history made of the JSON objects of messages whose roles are
    "user" or "assistant" passes the loop unchanged: the normalised
    history is that list of messages, in order. *)
Theorem normalize_well_formed_history (msgs : list message) :
  Forall (λ msg, chat_role (role msg)) msgs →
  fold_left normalize_item (List.map item_of msgs) [] = msgs.
Proof.
  intros H. rewrite normalize_spec.
  change ([] ++ filtered_history (List.map item_of msgs))
    with (filtered_history (List.map item_of msgs)).
  unfold filtered_history.
  induction H as [|msg msgs Hr _ IH]; [reflexivity|].
  cbn [List.map List.filter].
  rewrite (conforming_item_of msg Hr). cbn [List.map].
  by rewrite message_of_item_of, IH.
Qed.

Lemma normalize_well_formed_history_witness :
  fold_left normalize_item (List.map item_of Cases.exchange) []
  = Cases.exchange.
Proof.
  apply (normalize_well_formed_history Cases.exchange).
  constructor; [by left|]. constructor; [by right|]. constructor.
Defined.

(** X17.  When the view returns, its reply is one of three: status 400
    with [error] "message is required", and no call was made; status 200
    with [reply] a string or null, after one call; status 500 with
    [error] a string, after one call.  The body holds one of the two
    keys, never both. *)
Theorem chat_reply_shape (g : globals) (req : request) (c c' : client)
    (r : response) :
  chat g req c = (Ok r, c') →
  (r = error_reply (lit "message is required") 400 ∧ c' = c)
  ∨ (∃ k, calls c' = calls c ++ [k]
          ∧ ((∃ v, r = reply_of v ∧ (v = VNone ∨ ∃ s, v = VStr s))
             ∨ ∃ d, r = error_reply d 500)).
Proof.
  intros H.
  destruct (chat_cases g req c) as [[exc E]|[E|(items & m & _ & E)]];
    rewrite E in H.
  - discriminate H.
  - left. by injection H as <- <-.
  - right. injection H as <- <-. eexists. split; [reflexivity|].
    unfold relayed, first_content.
    destruct (service c (calls c) _) as [[choices]|exc]; simpl;
      [|right; by eexists].
    destruct choices as [|[s|] rest]; simpl.
    + right. by eexists.
    + left. exists (VStr s). split; [reflexivity|]. right. by exists s.
    + left. exists VNone. split; [reflexivity|]. by left.
Qed.

Lemma chat_reply_shape_witness :
  (reply_of (VStr (lit "Hello!"))
   = error_reply (lit "message is required") 400
   ∧ (chat Sample.globals_ (Json (VDict Sample.fields)) Sample.answering).2
     = Sample.answering)
  ∨ (∃ k, calls (chat Sample.globals_ (Json (VDict Sample.fields))
                   Sample.answering).2
          = calls Sample.answering ++ [k]
          ∧ ((∃ v, reply_of (VStr (lit "Hello!")) = reply_of v
                   ∧ (v = VNone ∨ ∃ s, v = VStr s))
             ∨ ∃ d, reply_of (VStr (lit "Hello!")) = error_reply d 500)).
Proof.
  apply (chat_reply_shape Sample.globals_ (Json (VDict Sample.fields))
           Sample.answering).
  reflexivity.
Defined.

(** X18.  An exception leaves the view only before the service is
    called: when the view raises, the client is as it was.  Once the call
    is made, the view returns a reply whatever the service does. *)
Theorem chat_raises_before_call (g : globals) (req : request)
    (c c' : client) (exc : exn) :
  chat g req c = (Raise exc, c') → c' = c.
Proof.
  intros H.
  destruct (chat_cases g req c) as [[e E]|[E|(items & m & _ & E)]];
    rewrite E in H.
  - by injection H as _ <-.
  - discriminate H.
  - discriminate H.
Qed.

Lemma chat_raises_before_call_witness :
  (chat Sample.globals_ (Json (VDict Sample.number_fields))
     Sample.answering).2
  = Sample.answering.
Proof.
  apply (chat_raises_before_call Sample.globals_
           (Json (VDict Sample.number_fields)) Sample.answering _
           (AttributeError (lit "'int' object has no attribute 'strip'"))).
  reflexivity.
Defined.

(** X19.  Whatever the request, the user message of a call made by the
    view is the last message, and its content is not empty and neither
    starts nor ends with a whitespace character. *)
Theorem chat_user_message_trimmed (g : globals) (req : request) (c : client)
    (k : call) :
  k ∈ calls_made c (chat g req c).2 →
  ∃ text,
    last (call_messages k) = Some {| role := lit "user"; content := text |}
    ∧ (∃ a, head text = Some a ∧ isspace a = false)
    ∧ (∃ z, last text = Some z ∧ isspace z = false).
Proof.
  intros Hk.
  destruct (chat_calls_made g req c) as [E|(items & m & Hs & E)];
    rewrite E in Hk.
  - by apply elem_of_nil in Hk.
  - apply list_elem_of_singleton in Hk as ->.
    exists (strip m). split; [|split].
    + unfold outgoing. simpl.
      change (system_message g :: filtered_history items ++ ?l)
        with ((system_message g :: filtered_history items) ++ l).
      apply last_snoc.
    + destruct (head (strip m)) as [a|] eqn:Ha.
      * exists a. split; [reflexivity|]. by apply (strip_head m).
      * destruct (strip m); [congruence | discriminate].
    + destruct (last (strip m)) as [z|] eqn:Hz.
      * exists z. split; [reflexivity|]. by apply (strip_last m).
      * apply last_None in Hz. congruence.
Qed.

Lemma chat_user_message_trimmed_witness :
  ∃ text,
    last (call_messages
            {| call_model := lit "gpt-4o-mini";
               call_messages := outgoing Sample.globals_ [] (lit "Hi") |})
    = Some {| role := lit "user"; content := text |}
    ∧ (∃ a, head text = Some a ∧ isspace a = false)
    ∧ (∃ z, last text = Some z ∧ isspace z = false).
Proof.
  apply (chat_user_message_trimmed Sample.globals_
           (Json (VDict Cases.padded_message)) Sample.answering).
  vm_compute. by left.
Defined.

(** X20.  A message that is a string is refused with the 400 reply
    exactly when all its characters are whitespace, the empty string
    included. *)
Theorem chat_refuses_whitespace_only (g : globals) (c : client)
    (fields : list (str * value)) (m : str) :
  dict_get fields (lit "message") = VStr m →
  (chat g (Json (VDict fields)) c
   = (Ok (error_reply (lit "message is required") 400), c)
   ↔ whitespace m).
Proof.
  intros Hm. rewrite <- strip_nil. split.
  - intros H. destruct (decide (strip m = [])) as [Hs|Hs]; [exact Hs|].
    exfalso.
    destruct (iterate (or_ (dict_get fields (lit "history")) (VList [])))
      as [items|exc] eqn:Hit.
    + rewrite (chat_relays g c fields m items) in H by assumption.
      injection H as H _. unfold relayed in H.
      repeat case_match; discriminate H.
    + rewrite (chat_history_raises g c fields m exc) in H by assumption.
      discriminate H.
  - intros Hs. apply chat_rejects. rewrite Hm. unfold or_.
    destruct m; simpl; [reflexivity | by rewrite Hs].
Qed.

Lemma chat_refuses_whitespace_only_witness :
  chat Sample.globals_ (Json (VDict Sample.blank_fields)) Sample.answering
  = (Ok (error_reply (lit "message is required") 400), Sample.answering)
  ↔ whitespace (lit "  ").
Proof.
  apply (chat_refuses_whitespace_only Sample.globals_ Sample.answering
           Sample.blank_fields (lit "  ")).
  reflexivity.
Defined.

(** ** Runs of the process *)

Lemma posts_cons (ev : event) (evs : list event) :
  posts (ev :: evs) = ((if is_post ev then 1 else 0) + posts evs)%nat.
Proof. unfold posts. simpl. by destruct (is_post ev). Qed.

(** One event: the globals stay, a request adds one reply and at most one
    call, made with the model of the globals; another event adds
    neither. *)
Lemma step_effect (p : process) (ev : event) :
  proc_globals (step p ev) = proc_globals p
  ∧ length (proc_replies (step p ev))
    = (length (proc_replies p) + (if is_post ev then 1 else 0))%nat
  ∧ ∃ new,
      calls (proc_client (step p ev)) = calls (proc_client p) ++ new
      ∧ (length new ≤ (if is_post ev then 1 else 0))%nat
      ∧ Forall (λ k, call_model k = DEFAULT_MODEL (proc_globals p)) new.
Proof.
  destruct ev as [path f|path|name v|req]; simpl;
    try (split; [reflexivity|]; split; [lia|]; exists [];
         rewrite app_nil_r; repeat split; [simpl; lia | constructor]).
  destruct (chat_calls (proc_globals p) req (proc_client p))
    as [_ [Hc|[rest Hc]]];
    destruct (chat (proc_globals p) req (proc_client p)) as [r c'];
    simpl in *; (split; [reflexivity|]);
    (split; [by rewrite length_app|]).
  - exists []. rewrite app_nil_r. split; [exact Hc|].
    split; [simpl; lia | constructor].
  - eexists. split; [exact Hc|]. split; [simpl; lia|].
    by repeat constructor.
Qed.

Lemma run_effect (evs : list event) (p : process) :
  proc_globals (run p evs) = proc_globals p
  ∧ length (proc_replies (run p evs))
    = (length (proc_replies p) + posts evs)%nat
  ∧ ∃ new,
      calls (proc_client (run p evs)) = calls (proc_client p) ++ new
      ∧ (length new ≤ posts evs)%nat
      ∧ Forall (λ k, call_model k = DEFAULT_MODEL (proc_globals p)) new.
Proof.
  revert p. induction evs as [|ev evs IH]; intros p.
  - simpl. split; [reflexivity|]. split; [unfold posts; simpl; lia|].
    exists []. rewrite app_nil_r. repeat split; [simpl; lia | constructor].
  - destruct (IH (step p ev)) as (Hg2 & Hr2 & new2 & Hc2 & Hl2 & Hm2).
    destruct (step_effect p ev) as (Hg1 & Hr1 & new1 & Hc1 & Hl1 & Hm1).
    rewrite posts_cons. unfold run in *. simpl.
    split; [congruence|]. split; [lia|].
    exists (new1 ++ new2). split; [by rewrite Hc2, Hc1, app_assoc|].
    split; [rewrite length_app; lia|].
    apply Forall_app. split; [exact Hm1|]. by rewrite <- Hg1.
Qed.

(** X21.  Every call of a run is made with the model bound when the
    module body ran: [OPENAI_MODEL] of the environment at start, or
    "gpt-4o-mini" when it was unset.  Neither a request nor a later
    change of the environment changes the model. *)
Theorem run_model_constant (env : environ) (dir : directory) (c : client)
    (p : process) (evs : list event) (k : call) :
  start env dir c = Ok p →
  k ∈ calls_made c (proc_client (run p evs)) →
  call_model k
  = getenv_default env (lit "OPENAI_MODEL") (lit "gpt-4o-mini").
Proof.
  unfold start, module_body. intros Hs Hk.
  destruct (negb _); [discriminate Hs|].
  destruct (build_profile_context dir) as [context|exc]; [|discriminate Hs].
  simpl in Hs. injection Hs as <-.
  destruct (run_effect evs
              {| proc_globals :=
                   {| PERSON_NAME :=
                        getenv_default env (lit "PERSON_NAME")
                          (lit "Your Name");
                      PROFILE_CONTEXT := context;
                      DEFAULT_MODEL :=
                        getenv_default env (lit "OPENAI_MODEL")
                          (lit "gpt-4o-mini");
                      SYSTEM_PROMPT :=
                        system_prompt
                          (getenv_default env (lit "PERSON_NAME")
                             (lit "Your Name")) context |};
                 proc_client := c; proc_env := env; proc_dir := dir;
                 proc_replies := [] |})
    as (_ & _ & new & Hc & _ & Hall).
  unfold calls_made in Hk. rewrite Hc in Hk. simpl in Hk.
  rewrite drop_app_length in Hk.
  rewrite Forall_forall in Hall. by apply Hall.
Qed.

Lemma run_model_constant_witness :
  call_model
    {| call_model := lit "gpt-4o-mini";
       call_messages :=
         outgoing Sample.globals_ [] (lit "Hi") |}
  = getenv_default Sample.env (lit "OPENAI_MODEL") (lit "gpt-4o-mini").
Proof.
  apply (run_model_constant Sample.env ∅ Sample.answering Sample.process_
           Cases.events).
  - reflexivity.
  - vm_compute. right. by left.
Defined.

(** X22.  In every run each request gets one entry in the replies, and
    the service is called at most once per request: the view never calls
    twice for one request, and nothing but a request makes a call. *)
Theorem run_one_call_per_request (p : process) (evs : list event) :
  length (proc_replies (run p evs))
  = (length (proc_replies p) + posts evs)%nat
  ∧ (length (calls_made (proc_client p) (proc_client (run p evs)))
     ≤ posts evs)%nat.
Proof.
  destruct (run_effect evs p) as (_ & Hr & new & Hc & Hl & _).
  split; [exact Hr|].
  unfold calls_made. rewrite Hc. by rewrite drop_app_length.
Qed.
